(** * kinder/ci/tools/update-workflows/pkg/testinfra.go

  A shallow embedding of [processTestInfra], the generator of test-infra
  (Prow) periodic job files, and the properties of its pipeline:
  version filtering, template variable resolution, rendering, YAML
  validation and the final write.

  Go strings are byte strings: they are [String.string] here.  Go [int]s
  are [Z].  The function returns an [error]; its effects (log lines, the
  template file read, template executions, the validation and the write)
  are made explicit: the file system is threaded as state and every
  effect is recorded, in order, in the trace of the run. *)

From Stdlib Require Import ZArith Ascii String List DecimalString Bool Lia.
From stdpp Require Import base option list strings gmap.

Import ListNotations.
Local Open Scope string_scope.
Local Open Scope Z_scope.

(** ** Go strings *)

Module strings.

(** The one-byte strings the source writes with escapes. *)
Definition dquote : string := String (ascii_of_nat 34) EmptyString.   (* the byte 0x22 *)
Definition newline : string := String (ascii_of_nat 10) EmptyString.  (* the byte 0x0a *)

(** [strings.HasSuffix]: [len(s) >= len(suffix) && s[len(s)-len(suffix):] == suffix]. *)
Definition HasSuffix (s suffix : string) : bool :=
  (String.length suffix <=? String.length s)%nat
  && String.eqb (substring (String.length s - String.length suffix)
                           (String.length suffix) s) suffix.

(** [strings.TrimSuffix]: [s] without the trailing [suffix]; [s] itself when
    it does not end in [suffix]. *)
Definition TrimSuffix (s suffix : string) : string :=
  if HasSuffix s suffix
  then substring 0 (String.length s - String.length suffix) s
  else s.

(** [strings.Contains], as a proposition. *)
Definition Contains (s substr : string) : Prop :=
  exists pre post : string, s = pre ++ substr ++ post.

(** [strings.Count] for a one-byte separator. *)
Fixpoint CountByte (s : string) (c : ascii) : nat :=
  match s with
  | EmptyString => 0%nat
  | String a s' => ((if Ascii.eqb a c then 1 else 0) + CountByte s' c)%nat
  end.

(** [strings.Split] at the newline byte: the lines of [s]. *)
Fixpoint lines_go (cur : string) (s : string) : list string :=
  match s with
  | EmptyString => [cur]
  | String a s' =>
      if Ascii.eqb a (ascii_of_nat 10)
      then cur :: lines_go EmptyString s'
      else lines_go (cur ++ String a EmptyString) s'
  end.
Definition Lines (s : string) : list string := lines_go EmptyString s.

(** [n] spaces. *)
Fixpoint Repeat_space (n : nat) : string :=
  match n with
  | O => EmptyString
  | S n' => String " " (Repeat_space n')
  end.

End strings.

(** ** fmt *)

Module fmt.

(** The operands of the calls of this file: [int]s and [string]s. *)
Inductive operand : Type :=
| Int (n : Z)
| Str (s : string).

(** [%d] of an [int]: decimal digits, with a minus sign when negative. *)
Definition verb_d (n : Z) : string := NilZero.string_of_int (Z.to_int n).

(** One verb applied to one operand; a verb of the wrong kind prints the
    operand in the bad-verb form [%!verb(type=value)]. *)
Definition verb (v : ascii) (a : operand) : string :=
  match a with
  | Int n => if Ascii.eqb v "d" then verb_d n
             else "%!" ++ String v ("(int=" ++ verb_d n ++ ")")
  | Str s => if Ascii.eqb v "s" then s
             else "%!" ++ String v ("(string=" ++ s ++ ")")
  end.

(** [fmt.Sprintf] for formats whose verbs are [%d] and [%s]: every other
    byte is copied.  A verb without operand prints [%!v(MISSING)]. *)
Fixpoint Sprintf (format : string) (args : list operand) : string :=
  match format with
  | EmptyString => EmptyString
  | String c rest =>
      match rest with
      | String v rest' =>
          if Ascii.eqb c "%" && (Ascii.eqb v "d" || Ascii.eqb v "s")
          then match args with
               | a :: args' => verb v a ++ Sprintf rest' args'
               | [] => "%!" ++ String v ("(MISSING)" ++ Sprintf rest' [])
               end
          else String c (Sprintf rest args)
      | EmptyString => String c EmptyString
      end
  end.

End fmt.

(** ** The words of the specification *)

(** An annotation line: the key, a colon and the number as a quoted scalar. *)
Definition annotation (key : string) (n : Z) : string :=
  key ++ ": " ++ strings.dquote ++ fmt.verb_d n ++ strings.dquote.

(** The alert annotation block as the specification words it: two lines,
    each indented by [indent] spaces, with the two thresholds. *)
Definition alertBlock (indent : nat) (failures staleResults : Z) : string :=
  strings.Repeat_space indent ++ annotation "testgrid-num-failures-to-alert" failures
  ++ strings.newline ++
  strings.Repeat_space indent ++ annotation "testgrid-alert-stale-results-hours" staleResults.

(** The scalar inside a quoted scalar: the text without its first and its
    last byte. *)
Definition unquote (quoted : string) : string :=
  substring 1 (String.length quoted - 2) quoted.

(** ** Errors *)

(** Go [error] values: the errors of the [os] package, the errors the
    template and YAML libraries create, and the wrapper of
    [github.com/pkg/errors]. *)
Inductive error : Type :=
| PathError (op path msg : string)
| errorString (msg : string)
| withMessage (cause : error) (msg : string).

Module errors.

(** The [Error()] method.  A wrapped error prints its message, a colon and
    the message of its cause. *)
Fixpoint Error (e : error) : string :=
  match e with
  | PathError op path msg => op ++ " " ++ path ++ ": " ++ msg
  | errorString msg => msg
  | withMessage cause msg => msg ++ ": " ++ Error cause
  end.

(** [errors.Wrapf(err, format, args...)]. *)
Definition Wrapf (err : error) (format : string) (args : list fmt.operand) : error :=
  withMessage err (fmt.Sprintf format args).

(** [errors.Cause]: the innermost error. *)
Fixpoint Cause (e : error) : error :=
  match e with
  | withMessage cause _ => Cause cause
  | _ => e
  end.

End errors.

(** ** Data model

    The structs are declared in other files of the package; each record has
    the fields this file reads or writes. *)

Module job.
Record t : Type := mk {
  KubernetesVersion : string;
  KubeadmVersion : string;
  KubeletVersion : string;
  InitVersion : string;
  UpgradeVersion : string
}.
End job.

Module jobGroup.
Record t : Type := mk {
  Name : string;
  TestInfraJobSpec_Template : string;
  TestInfraJobSpec_TargetFile : string;
  KinderWorkflowSpec_TargetFile : string;
  Jobs : list job.t
}.

(** The group with other entries. *)
Definition withJobs (cfg : t) (jobs : list job.t) : t :=
  mk (Name cfg) (TestInfraJobSpec_Template cfg) (TestInfraJobSpec_TargetFile cfg)
     (KinderWorkflowSpec_TargetFile cfg) jobs.
End jobGroup.

Module Settings.
Record t : Type := mk {
  PathConfig : string;
  PathTestInfra : string;
  ImageTestInfra : string
}.
End Settings.

Module templateVars.
Record t : Type := mk {
  KubernetesVersion : string;
  KubeadmVersion : string;
  KubeletVersion : string;
  InitVersion : string;
  UpgradeVersion : string;
  TargetFile : string;
  TestInfraImage : string;
  WorkflowFile : string;
  JobInterval : string;
  AlertAnnotations : string
}.

(** Field assignments [vars.F = x]. *)
Definition set_WorkflowFile (x : string) (v : t) : t :=
  mk (KubernetesVersion v) (KubeadmVersion v) (KubeletVersion v) (InitVersion v)
     (UpgradeVersion v) (TargetFile v) (TestInfraImage v)
     x (JobInterval v) (AlertAnnotations v).
Definition set_JobInterval (x : string) (v : t) : t :=
  mk (KubernetesVersion v) (KubeadmVersion v) (KubeletVersion v) (InitVersion v)
     (UpgradeVersion v) (TargetFile v) (TestInfraImage v)
     (WorkflowFile v) x (AlertAnnotations v).
Definition set_AlertAnnotations (x : string) (v : t) : t :=
  mk (KubernetesVersion v) (KubeadmVersion v) (KubeletVersion v) (InitVersion v)
     (UpgradeVersion v) (TargetFile v) (TestInfraImage v)
     (WorkflowFile v) (JobInterval v) x.
End templateVars.

(** ** The file system and the trace of a run *)

(** Files by path (a file that is not in the map cannot be read), and the
    paths at which a write fails (no permission, a read-only or a full
    device, ...). *)
Record fileSystem : Type := mkFS {
  files : gmap string string;
  locked : gset string
}.

(** The operands of a log line. *)
Inductive logArg : Type :=
| LInt (n : Z)
| LStr (s : string)
| LJob (j : job.t).

(** What a run does, in order. *)
Inductive event : Type :=
| Log (format : string) (args : list logArg)
| ReadFile (path : string)
| TemplateParse (name text : string)
| TemplateExecute (name : string) (vars : templateVars.t)
| Unmarshal (text : string)
| WriteFile (path data : string) (perm : Z).

Definition is_log (e : event) : bool :=
  match e with Log _ _ => true | _ => false end.
Definition is_write (e : event) : bool :=
  match e with WriteFile _ _ _ => true | _ => false end.
Definition is_execute (e : event) : bool :=
  match e with TemplateExecute _ _ => true | _ => false end.
Definition is_read (e : event) : bool :=
  match e with ReadFile _ => true | _ => false end.

(** The trace without its log lines. *)
Definition effects (t : list event) : list event :=
  List.filter (fun e => negb (is_log e)) t.

(** ** The monad of the embedding: state (the file system), trace and error *)

Record outcome (A : Type) : Type := Outcome {
  trace : list event;
  final : fileSystem;
  result : error + A
}.
Arguments Outcome {A} _ _ _.
Arguments trace {A} _.
Arguments final {A} _.
Arguments result {A} _.

Definition M (A : Type) : Type := fileSystem -> outcome A.

Definition ret {A : Type} (a : A) : M A :=
  fun fs => Outcome [] fs (inr a).

(** [return err]. *)
Definition fail {A : Type} (e : error) : M A :=
  fun fs => Outcome [] fs (inl e).

(** Sequencing; an error ends the function ([if err != nil { return err }]). *)
Definition bind {A B : Type} (m : M A) (k : A -> M B) : M B :=
  fun fs =>
    let o := m fs in
    match result o with
    | inl e => Outcome (trace o) (final o) (inl e)
    | inr a => let o' := k a (final o) in
               Outcome (trace o ++ trace o') (final o') (result o')
    end.

Definition emit (e : event) : M unit :=
  fun fs => Outcome [e] fs (inr tt).

(** A run that leaves the file system as it was and writes no file. *)
Definition quiet {A : Type} (fs : fileSystem) (o : outcome A) : Prop :=
  final o = fs /\ Forall (fun e => is_write e = false) (trace o).

Definition get_fs : M fileSystem :=
  fun fs => Outcome [] fs (inr fs).

Definition put_fs (fs' : fileSystem) : M unit :=
  fun _ => Outcome [] fs' (inr tt).

#[global] Instance M_ret : MRet M := @ret.
#[global] Instance M_bind : MBind M := fun A B k m => bind m k.

(** ** bytes.Buffer *)

Module bytes.
Definition Buffer : Type := string.
(** The zero value [bytes.Buffer{}]. *)
Definition empty : Buffer := EmptyString.
Definition Write (b : Buffer) (p : string) : Buffer := b ++ p.
Definition Reset (b : Buffer) : Buffer := EmptyString.
Definition String (b : Buffer) : string := b.
End bytes.

(** ** path *)

Module path.
(** [path.IsAbs]: [len(path) > 0 && path[0] == '/']. *)
Definition IsAbs (p : string) : bool :=
  match p with
  | String c _ => Ascii.eqb c "/"
  | EmptyString => false
  end.
End path.

(** ** What the function takes from elsewhere *)

(** A [template.FuncMap]: names bound to functions.  The helpers of this
    package take and return strings. *)
Definition FuncMap : Type := list (string * (string -> string)).

(** How a write that fails fails.  [os.WriteFile] opens the file (creating
    or truncating it), writes the data and closes the file: it fails at the
    open, before anything changes, or after it, when the file has been
    truncated and holds the first [written] bytes of the data. *)
Inductive writeFault : Type :=
| OpenFails (err : error)
| WriteFails (written : nat) (err : error).

Definition faultError (f : writeFault) : error :=
  match f with
  | OpenFails err => err
  | WriteFails _ err => err
  end.

(** The libraries the function calls: [text/template] (parsing a text with
    the names of a function map in scope; executing a parse tree on the
    variables, which yields the text written so far and the error, if any),
    [sigs.k8s.io/yaml], the path functions that clean their result, and
    what the operating system does with a write that fails, given the name
    and the data. *)
Class Library : Type := {
  os_fault : string -> string -> writeFault;
  parseTree : Type;
  template_parse : FuncMap -> string -> error + parseTree;
  template_exec : FuncMap -> parseTree -> templateVars.t -> string * option error;
  yaml_parse : string -> option error;
  filepath_Join : string -> string -> string;
  filepath_Dir : string -> string;
  path_Base : string -> string
}.

(** The declarations of the package that live in other files than
    testinfra.go, as parameters.  [Version] stands for the parsed versions
    ([*versionutil.Version]); [latestVersion] is the sentinel of the moving
    release; [autogeneratedHeader] is the fixed header comment;
    [skipVersion] is the version filter, called with the oldest tracked
    version, the minimum version and the version of the entry; the five
    template helpers take a version-like string and return a string. *)
Class Package : Type := {
  Version : Type;
  latestVersion : string;
  autogeneratedHeader : string;
  skipVersion : Version -> Version -> string -> bool;
  dashVer : string -> string;
  ciLabelFor : string -> string;
  imageVer : string -> string;
  branchFor : string -> string;
  sigReleaseVer : string -> string
}.

Section TestInfra.

Context `{Lib : Library} `{Pkg : Package}.

(** *** log, os, text/template and yaml calls *)

Definition log_Infof (format : string) (args : list logArg) : M unit :=
  emit (Log format args).

(** [os.ReadFile]. *)
Definition os_ReadFile (name : string) : M string :=
  emit (ReadFile name) ;;
  fs ← get_fs;
  match files fs !! name with
  | Some data => ret data
  | None => fail (PathError "open" name "no such file or directory")
  end.

(** The file system after a write of [data] at [name] that fails: as it
    was when the open fails, with the file truncated to the bytes written
    when the write fails after the open. *)
Definition failedWrite (fs : fileSystem) (name data : string) : fileSystem :=
  match os_fault name data with
  | OpenFails _ => fs
  | WriteFails written _ =>
      mkFS (<[name := substring 0 written data]> (files fs)) (locked fs)
  end.

(** [os.WriteFile]: creates the file or truncates it, then writes [data];
    the error of the open, of the write or of the close is returned. *)
Definition os_WriteFile (name data : string) (perm : Z) : M unit :=
  emit (WriteFile name data perm) ;;
  fs ← get_fs;
  if decide (name ∈ locked fs)
  then put_fs (failedWrite fs name data) ;; fail (faultError (os_fault name data))
  else put_fs (mkFS (<[name := data]> (files fs)) (locked fs)).

(** A [*template.Template]: its name, the functions bound to it and, once
    parsed, its tree. *)
Record Template : Type := mkTemplate {
  Name : string;
  Funcs_of : FuncMap;
  Tree : option parseTree
}.

Definition template_New (name : string) : Template :=
  mkTemplate name [] None.

Definition template_Funcs (t : Template) (funcMap : FuncMap) : Template :=
  mkTemplate (Name t) (funcMap ++ Funcs_of t)%list (Tree t).

Definition template_Parse (t : Template) (text : string) : M Template :=
  emit (TemplateParse (Name t) text) ;;
  match template_parse (Funcs_of t) text with
  | inl err => fail err
  | inr tree => ret (mkTemplate (Name t) (Funcs_of t) (Some tree))
  end.

(** What executing a template on [data] prints, and the error it ends
    with, if any.  A template that was never parsed has nothing to execute. *)
Definition template_run (t : Template) (data : templateVars.t) : string * option error :=
  match Tree t with
  | None => ("", Some (errorString "template: incomplete or empty template"))
  | Some tree => template_exec (Funcs_of t) tree data
  end.

(** [t.Execute(&buf, data)]: what the template prints is written to the
    buffer, also when the execution then fails. *)
Definition template_Execute (t : Template) (buf : bytes.Buffer) (data : templateVars.t)
  : M bytes.Buffer :=
  emit (TemplateExecute (Name t) data) ;;
  let '(out, err) := template_run t data in
  let buf := bytes.Write buf out in
  match err with
  | Some e => fail e
  | None => ret buf
  end.

(** [yaml.Unmarshal(y, struct{}{})]: the error, or nil. *)
Definition yaml_Unmarshal (y : string) : M (option error) :=
  emit (Unmarshal y) ;;
  ret (yaml_parse y).

(** *** processTestInfra *)

(** Lines 80-89: the variables copied from the entry, the group and the
    settings; the other fields are empty strings. *)
Definition initVars (settings : Settings.t) (cfg : jobGroup.t) (j : job.t) : templateVars.t :=
  {| templateVars.KubernetesVersion := job.KubernetesVersion j;
     templateVars.KubeadmVersion := job.KubeadmVersion j;
     templateVars.KubeletVersion := job.KubeletVersion j;
     templateVars.InitVersion := job.InitVersion j;
     templateVars.UpgradeVersion := job.UpgradeVersion j;
     templateVars.TargetFile := jobGroup.TestInfraJobSpec_TargetFile cfg;
     templateVars.TestInfraImage := Settings.ImageTestInfra settings;
     templateVars.WorkflowFile := "";
     templateVars.JobInterval := "";
     templateVars.AlertAnnotations := "" |}.

(** Line 96. *)
Definition workflowFile (rendered : string) : string :=
  strings.dquote ++ strings.TrimSuffix rendered ".yaml" ++ strings.dquote.

(** Lines 99-109: the interval and the two alert thresholds. *)
Definition periodAndAlerts (j : job.t) : string * Z * Z :=
  if String.eqb (job.KubernetesVersion j) latestVersion
     || String.eqb (job.KubeadmVersion j) latestVersion
  then ("2h", 8, 16)
  else ("12h", 4, 48).

(** Lines 110-111. *)
Definition alertAnnotations (failures staleResults : Z) : string :=
  fmt.Sprintf
    ("    testgrid-num-failures-to-alert: " ++ strings.dquote ++ "%d" ++ strings.dquote
       ++ strings.newline ++
     "    testgrid-alert-stale-results-hours: " ++ strings.dquote ++ "%d" ++ strings.dquote)
    [fmt.Int failures; fmt.Int staleResults].

(** Lines 79-111 after the file name is rendered: the variables the job
    template is executed on. *)
Definition resolveVars (settings : Settings.t) (cfg : jobGroup.t) (j : job.t)
    (rendered : string) : templateVars.t :=
  let vars := initVars settings cfg j in
  let vars := templateVars.set_WorkflowFile (workflowFile rendered) vars in
  let '(interval, failures, staleResults) := periodAndAlerts j in
  let vars := templateVars.set_JobInterval interval vars in
  templateVars.set_AlertAnnotations (alertAnnotations failures staleResults) vars.

(** The entries the version filter keeps (line 74). *)
Definition kept (oldestVer minVer : Version) (j : job.t) : bool :=
  negb (skipVersion oldestVer minVer (job.KubernetesVersion j)).

(** Lines 113-118: the buffer is emptied, the job template is executed into
    it and its content is appended to the text, after a newline. *)
Definition renderJob (templateJob : Template) (buf : bytes.Buffer)
    (vars : templateVars.t) (str : string) : M string :=
  let buf := bytes.Reset buf in
  buf ← template_Execute templateJob buf vars;
  ret (str ++ strings.newline ++ bytes.String buf).

(** Lines 72-118: the body of the loop, for the entry [j] at index [i] and
    the text [str] accumulated so far.  [continue] leaves [str] as it is. *)
Definition processJob (settings : Settings.t) (cfg : jobGroup.t)
    (oldestVer minVer : Version) (templateFileName templateJob : Template)
    (i : Z) (j : job.t) (str : string) : M string :=
  log_Infof "processing Job index %d, %#v" [LInt i; LJob j] ;;
  if skipVersion oldestVer minVer (job.KubernetesVersion j)
  then
    log_Infof "skipping Job index %d, %#v" [LInt i; LJob j] ;;
    ret str
  else
    let vars := initVars settings cfg j in
    let buf := bytes.empty in
    buf ← template_Execute templateFileName buf vars;
    let vars := resolveVars settings cfg j (bytes.String buf) in
    renderJob templateJob buf vars str.

(** Lines 71-119: [for i, job := range cfg.Jobs]. *)
Fixpoint processJobs (settings : Settings.t) (cfg : jobGroup.t)
    (oldestVer minVer : Version) (templateFileName templateJob : Template)
    (i : Z) (jobs : list job.t) (str : string) : M string :=
  match jobs with
  | [] => ret str
  | j :: jobs' =>
      str ← processJob settings cfg oldestVer minVer templateFileName templateJob i j str;
      processJobs settings cfg oldestVer minVer templateFileName templateJob (i + 1) jobs' str
  end.

(** Lines 44-47: the path of the template file. *)
Definition templatePath (settings : Settings.t) (cfg : jobGroup.t) : string :=
  let tPath := jobGroup.TestInfraJobSpec_Template cfg in
  if negb (path.IsAbs tPath)
  then filepath_Join (filepath_Dir (Settings.PathConfig settings)) tPath
  else tPath.

(** Line 127: the path of the output file. *)
Definition outputPath (settings : Settings.t) (cfg : jobGroup.t) : string :=
  filepath_Join (Settings.PathTestInfra settings)
                (path_Base (jobGroup.TestInfraJobSpec_TargetFile cfg)).

(** Lines 52-57: the function map of the job template. *)
Definition jobFuncMap : FuncMap :=
  [ ("dashVer", dashVer); ("ciLabelFor", ciLabelFor); ("imageVer", imageVer);
    ("branchFor", branchFor); ("sigReleaseVer", sigReleaseVer) ].

(** Line 69: the text the loop starts from. *)
Definition initialText : string :=
  autogeneratedHeader ++ strings.newline ++ "periodics:" ++ strings.newline.

(** Lines 121-131: validation, then the write (mode 0644). *)
Definition validateAndWrite (settings : Settings.t) (cfg : jobGroup.t) (str : string)
  : M unit :=
  err ← yaml_Unmarshal str;
  match err with
  | Some e =>
      fail (errors.Wrapf e (strings.newline ++ "%s" ++ strings.newline) [fmt.Str str])
  | None =>
      let outPath := outputPath settings cfg in
      log_Infof "writing %q" [LStr outPath] ;;
      os_WriteFile outPath str 420
  end.

Definition processTestInfra (settings : Settings.t) (cfg : jobGroup.t)
    (oldestVer minVer : Version) : M unit :=
  log_Infof "processing test-infra jobs for jobGroup %q" [LStr (jobGroup.Name cfg)] ;;
  if (String.length (jobGroup.TestInfraJobSpec_Template cfg) =? 0)%nat
  then
    log_Infof "empty TestInfra.Template; skipping test-infra jobs for jobGroup %q"
              [LStr (jobGroup.Name cfg)] ;;
    ret tt
  else
    let tPath := templatePath settings cfg in
    tBytes ← os_ReadFile tPath;
    templateJob ← template_Parse (template_Funcs (template_New "job-template") jobFuncMap)
                                 tBytes;
    templateFileName ← template_Parse (template_New "file-name")
                                      (jobGroup.KinderWorkflowSpec_TargetFile cfg);
    let str := initialText in
    str ← processJobs settings cfg oldestVer minVer templateFileName templateJob
                      0 (jobGroup.Jobs cfg) str;
    validateAndWrite settings cfg str.

End TestInfra.

(** ** Runs, as relations

    The outcomes of the loop body and of the loop, case by case; the
    lemmas below show that [processJob] and [processJobs] run this way. *)

Section Runs.

Context `{Lib : Library} `{Pkg : Package}.
Variables (settings : Settings.t) (cfg : jobGroup.t) (oldestVer minVer : Version).
Variables (templateFileName templateJob : Template).

(** The runs of the loop body on one entry: its trace and what it returns
    (an error, or the text accumulated so far). *)
Inductive entry_run (i : Z) (j : job.t) (str : string) : list event -> error + string -> Prop :=
| entry_skipped :
    skipVersion oldestVer minVer (job.KubernetesVersion j) = true ->
    entry_run i j str
      [ Log "processing Job index %d, %#v" [LInt i; LJob j];
        Log "skipping Job index %d, %#v" [LInt i; LJob j] ]
      (inr str)
| entry_file_name_fails out e :
    skipVersion oldestVer minVer (job.KubernetesVersion j) = false ->
    template_run templateFileName (initVars settings cfg j) = (out, Some e) ->
    entry_run i j str
      [ Log "processing Job index %d, %#v" [LInt i; LJob j];
        TemplateExecute (Name templateFileName) (initVars settings cfg j) ]
      (inl e)
| entry_job_fails rendered out e :
    skipVersion oldestVer minVer (job.KubernetesVersion j) = false ->
    template_run templateFileName (initVars settings cfg j) = (rendered, None) ->
    template_run templateJob (resolveVars settings cfg j rendered) = (out, Some e) ->
    entry_run i j str
      [ Log "processing Job index %d, %#v" [LInt i; LJob j];
        TemplateExecute (Name templateFileName) (initVars settings cfg j);
        TemplateExecute (Name templateJob) (resolveVars settings cfg j rendered) ]
      (inl e)
| entry_rendered rendered out :
    skipVersion oldestVer minVer (job.KubernetesVersion j) = false ->
    template_run templateFileName (initVars settings cfg j) = (rendered, None) ->
    template_run templateJob (resolveVars settings cfg j rendered) = (out, None) ->
    entry_run i j str
      [ Log "processing Job index %d, %#v" [LInt i; LJob j];
        TemplateExecute (Name templateFileName) (initVars settings cfg j);
        TemplateExecute (Name templateJob) (resolveVars settings cfg j rendered) ]
      (inr (str ++ strings.newline ++ out)).

(** The loop as a relation: the entries are run in order until one fails. *)
Inductive loop_run : Z -> list job.t -> string -> list event -> error + string -> Prop :=
| loop_done i str :
    loop_run i [] str [] (inr str)
| loop_stop i j jobs str t e :
    entry_run i j str t (inl e) ->
    loop_run i (j :: jobs) str t (inl e)
| loop_next i j jobs str t str' t' r :
    entry_run i j str t (inr str') ->
    loop_run (i + 1) jobs str' t' r ->
    loop_run i (j :: jobs) str (t ++ t') r.

(** Every execution of a template is that of an entry the filter keeps: the
    file-name template on the initial variables, the job template on the
    resolved ones. *)
Inductive executed (j : job.t) : string -> templateVars.t -> Prop :=
| executed_file_name :
    executed j (Name templateFileName) (initVars settings cfg j)
| executed_job rendered :
    template_run templateFileName (initVars settings cfg j) = (rendered, None) ->
    executed j (Name templateJob) (resolveVars settings cfg j rendered).

End Runs.

Section Pipeline.

Context `{Lib : Library} `{Pkg : Package}.
Variables (settings : Settings.t) (cfg : jobGroup.t) (oldestVer minVer : Version).

(** The two templates of a run, once parsed (lines 52-58 and 64). *)
Definition jobTemplate (tree : parseTree) : Template :=
  mkTemplate "job-template" jobFuncMap (Some tree).
Definition fileNameTemplate (tree : parseTree) : Template :=
  mkTemplate "file-name" [] (Some tree).

(** Lines 42-67 succeed: the template file is read and both templates parse. *)
Definition loaded (fs : fileSystem) (tBytes : string) (treeJob treeName : parseTree) : Prop :=
  jobGroup.TestInfraJobSpec_Template cfg <> ""
  /\ files fs !! templatePath settings cfg = Some tBytes
  /\ template_parse jobFuncMap tBytes = inr treeJob
  /\ template_parse [] (jobGroup.KinderWorkflowSpec_TargetFile cfg) = inr treeName.

(** What a run does before the loop. *)
Definition loading (tBytes : string) : list event :=
  [ Log "processing test-infra jobs for jobGroup %q" [LStr (jobGroup.Name cfg)];
    ReadFile (templatePath settings cfg);
    TemplateParse "job-template" tBytes;
    TemplateParse "file-name" (jobGroup.KinderWorkflowSpec_TargetFile cfg) ].

(** What a run does after a loop that ends well and a validation that passes. *)
Definition committing (str : string) : list event :=
  [ Unmarshal str;
    Log "writing %q" [LStr (outputPath settings cfg)];
    WriteFile (outputPath settings cfg) str 420 ].

(** The error of a failed validation (line 123). *)
Definition validationError (e : error) (str : string) : error :=
  errors.Wrapf e (strings.newline ++ "%s" ++ strings.newline) [fmt.Str str].

(** The runs of [processTestInfra] from the file system [fs]. *)
Inductive pipeline_run (fs : fileSystem) : outcome unit -> Prop :=
| run_no_template :
    jobGroup.TestInfraJobSpec_Template cfg = "" ->
    pipeline_run fs
      (Outcome
         [ Log "processing test-infra jobs for jobGroup %q" [LStr (jobGroup.Name cfg)];
           Log "empty TestInfra.Template; skipping test-infra jobs for jobGroup %q"
               [LStr (jobGroup.Name cfg)] ]
         fs (inr tt))
| run_read_fails :
    jobGroup.TestInfraJobSpec_Template cfg <> "" ->
    files fs !! templatePath settings cfg = None ->
    pipeline_run fs
      (Outcome
         [ Log "processing test-infra jobs for jobGroup %q" [LStr (jobGroup.Name cfg)];
           ReadFile (templatePath settings cfg) ]
         fs
         (inl (PathError "open" (templatePath settings cfg) "no such file or directory")))
| run_job_parse_fails tBytes e :
    jobGroup.TestInfraJobSpec_Template cfg <> "" ->
    files fs !! templatePath settings cfg = Some tBytes ->
    template_parse jobFuncMap tBytes = inl e ->
    pipeline_run fs
      (Outcome
         [ Log "processing test-infra jobs for jobGroup %q" [LStr (jobGroup.Name cfg)];
           ReadFile (templatePath settings cfg);
           TemplateParse "job-template" tBytes ]
         fs (inl e))
| run_name_parse_fails tBytes treeJob e :
    jobGroup.TestInfraJobSpec_Template cfg <> "" ->
    files fs !! templatePath settings cfg = Some tBytes ->
    template_parse jobFuncMap tBytes = inr treeJob ->
    template_parse [] (jobGroup.KinderWorkflowSpec_TargetFile cfg) = inl e ->
    pipeline_run fs (Outcome (loading tBytes) fs (inl e))
| run_loop_fails tBytes treeJob treeName t e :
    loaded fs tBytes treeJob treeName ->
    loop_run settings cfg oldestVer minVer (fileNameTemplate treeName) (jobTemplate treeJob)
             0 (jobGroup.Jobs cfg) initialText t (inl e) ->
    pipeline_run fs (Outcome (loading tBytes ++ t) fs (inl e))
| run_invalid tBytes treeJob treeName t str e :
    loaded fs tBytes treeJob treeName ->
    loop_run settings cfg oldestVer minVer (fileNameTemplate treeName) (jobTemplate treeJob)
             0 (jobGroup.Jobs cfg) initialText t (inr str) ->
    yaml_parse str = Some e ->
    pipeline_run fs
      (Outcome (loading tBytes ++ t ++ [Unmarshal str]) fs (inl (validationError e str)))
| run_write_fails tBytes treeJob treeName t str :
    loaded fs tBytes treeJob treeName ->
    loop_run settings cfg oldestVer minVer (fileNameTemplate treeName) (jobTemplate treeJob)
             0 (jobGroup.Jobs cfg) initialText t (inr str) ->
    yaml_parse str = None ->
    outputPath settings cfg ∈ locked fs ->
    pipeline_run fs
      (Outcome (loading tBytes ++ t ++ committing str)
               (failedWrite fs (outputPath settings cfg) str)
               (inl (faultError (os_fault (outputPath settings cfg) str))))
| run_written tBytes treeJob treeName t str :
    loaded fs tBytes treeJob treeName ->
    loop_run settings cfg oldestVer minVer (fileNameTemplate treeName) (jobTemplate treeJob)
             0 (jobGroup.Jobs cfg) initialText t (inr str) ->
    yaml_parse str = None ->
    outputPath settings cfg ∉ locked fs ->
    pipeline_run fs
      (Outcome (loading tBytes ++ t ++ committing str)
               (mkFS (<[outputPath settings cfg := str]> (files fs)) (locked fs))
               (inr tt)).

End Pipeline.


(** ** The entries of a run, one by one *)

Section Entries.

Context `{Lib : Library} `{Pkg : Package}.
Variables (settings : Settings.t) (cfg : jobGroup.t).
Variables (templateFileName templateJob : Template).

(** The block of an entry: what the job template prints on the variables
    resolved with the file name rendered for the entry (lines 93-118), when
    both executions succeed. *)
Definition entryBlock (j : job.t) : option string :=
  match template_run templateFileName (initVars settings cfg j) with
  | (rendered, None) =>
      match template_run templateJob (resolveVars settings cfg j rendered) with
      | (out, None) => Some out
      | (_, Some _) => None
      end
  | (_, Some _) => None
  end.

(** The two template executions of an entry (lines 93 and 115). *)
Definition entryExecutions (j : job.t) : list event :=
  let rendered := fst (template_run templateFileName (initVars settings cfg j)) in
  [ TemplateExecute (Name templateFileName) (initVars settings cfg j);
    TemplateExecute (Name templateJob) (resolveVars settings cfg j rendered) ].

End Entries.

(** Line 118, block after block: each block comes after a newline. *)
Fixpoint joinBlocks (blocks : list string) : string :=
  match blocks with
  | [] => EmptyString
  | b :: blocks' => strings.newline ++ b ++ joinBlocks blocks'
  end.

Definition is_unmarshal (e : event) : bool :=
  match e with Unmarshal _ => true | _ => false end.

(** The file system after [data] is written at [name]. *)
Definition writeFile (fs : fileSystem) (name data : string) : fileSystem :=
  mkFS (<[name := data]> (files fs)) (locked fs).

(** The file system after a run that wrote [w] at [name], or wrote nothing. *)
Definition commit (fs : fileSystem) (name : string) (w : option string) : fileSystem :=
  match w with
  | Some data => writeFile fs name data
  | None => fs
  end.

Section Inputs.

Context `{Lib : Library}.
Variables (settings : Settings.t) (cfg : jobGroup.t).

(** Two file systems that hold the same template file of the group and
    agree on whether its output path can be written. *)
Definition sameInputs (fs fs' : fileSystem) : Prop :=
  files fs !! templatePath settings cfg = files fs' !! templatePath settings cfg
  /\ (outputPath settings cfg ∈ locked fs <-> outputPath settings cfg ∈ locked fs').

End Inputs.

(** ** A small instance

    A template engine for texts with the actions [{{ .Field }}] and
    [{{ fn .Field }}], a validator that rejects tab-indented lines (YAML
    forbids them), slash-separated paths, and versions [1.N] ordered by
    their minor number.  The examples below run [processTestInfra] on it. *)

Module Sample.

Inductive node : Type :=
| Text (s : string)
| Field (name : string)
| Call (fn field : string).

Definition bound (funcs : FuncMap) (fn : string) : option (string -> string) :=
  snd <$> List.find (fun p => String.eqb (fst p) fn) funcs.

(** The action between two pairs of braces. *)
Definition action (funcs : FuncMap) (body : string) : error + node :=
  match String.words body with
  | [String "." name] => inr (Field name)
  | [fn; String "." name] =>
      match bound funcs fn with
      | Some _ => inr (Call fn name)
      | None => inl (errorString ("template: function not defined: " ++ fn))
      end
  | _ => inl (errorString ("template: unexpected action: " ++ body))
  end.

Fixpoint scan (funcs : FuncMap) (inAction : bool) (cur : string) (s : string)
  : error + list node :=
  match s with
  | EmptyString =>
      if inAction then inl (errorString "template: unclosed action")
      else inr [Text cur]
  | String a s' =>
      match s' with
      | String b s'' =>
          if negb inAction && Ascii.eqb a "{" && Ascii.eqb b "{"
          then match scan funcs true "" s'' with
               | inl e => inl e
               | inr nodes => inr (Text cur :: nodes)
               end
          else if inAction && Ascii.eqb a "}" && Ascii.eqb b "}"
          then match action funcs cur, scan funcs false "" s'' with
               | inl e, _ => inl e
               | _, inl e => inl e
               | inr n, inr nodes => inr (n :: nodes)
               end
          else scan funcs inAction (cur ++ String a "") s'
      | EmptyString => scan funcs inAction (cur ++ String a "") s'
      end
  end.

Definition parse (funcs : FuncMap) (text : string) : error + list node :=
  scan funcs false "" text.

Definition field (name : string) (v : templateVars.t) : option string :=
  if String.eqb name "KubernetesVersion" then Some (templateVars.KubernetesVersion v)
  else if String.eqb name "KubeadmVersion" then Some (templateVars.KubeadmVersion v)
  else if String.eqb name "KubeletVersion" then Some (templateVars.KubeletVersion v)
  else if String.eqb name "InitVersion" then Some (templateVars.InitVersion v)
  else if String.eqb name "UpgradeVersion" then Some (templateVars.UpgradeVersion v)
  else if String.eqb name "TargetFile" then Some (templateVars.TargetFile v)
  else if String.eqb name "TestInfraImage" then Some (templateVars.TestInfraImage v)
  else if String.eqb name "WorkflowFile" then Some (templateVars.WorkflowFile v)
  else if String.eqb name "JobInterval" then Some (templateVars.JobInterval v)
  else if String.eqb name "AlertAnnotations" then Some (templateVars.AlertAnnotations v)
  else None.

Definition no_field (name : string) : error :=
  errorString ("template: can't evaluate field " ++ name ++ " in type pkg.templateVars").

(** The text printed so far, and the error that stopped the execution. *)
Fixpoint exec (funcs : FuncMap) (nodes : list node) (v : templateVars.t)
  : string * option error :=
  match nodes with
  | [] => ("", None)
  | n :: nodes' =>
      let printed :=
        match n with
        | Text s => inr s
        | Field name =>
            match field name v with
            | Some x => inr x
            | None => inl (no_field name)
            end
        | Call fn name =>
            match bound funcs fn, field name v with
            | Some f, Some x => inr (f x)
            | None, _ => inl (errorString ("template: function not defined: " ++ fn))
            | _, None => inl (no_field name)
            end
        end in
      match printed with
      | inl e => ("", Some e)
      | inr out =>
          let '(rest, err) := exec funcs nodes' v in (out ++ rest, err)
      end
  end.

(** A tab at the start of a line. *)
Fixpoint tab_indented (atStart : bool) (s : string) : bool :=
  match s with
  | EmptyString => false
  | String c s' =>
      if atStart && Ascii.eqb c (ascii_of_nat 9) then true
      else tab_indented (Ascii.eqb c (ascii_of_nat 10)) s'
  end.

Definition validate (y : string) : option error :=
  if tab_indented true y
  then Some (errorString
    "error converting YAML to JSON: yaml: found character that cannot start any token")
  else None.

(** The directory and the last element of a slash-separated path. *)
Fixpoint split_last (dir cur : string) (seen : bool) (p : string) : string * string :=
  match p with
  | EmptyString => (if seen then (if String.eqb dir "" then "/" else dir) else ".", cur)
  | String c p' =>
      if Ascii.eqb c "/"
      then split_last (if seen then dir ++ "/" ++ cur else cur) "" true p'
      else split_last dir (cur ++ String c "") seen p'
  end.

Definition Dir (p : string) : string := fst (split_last "" "" false p).
Definition Base (p : string) : string := snd (split_last "" "" false p).
Definition Join (a b : string) : string :=
  if String.eqb a "" then b else a ++ "/" ++ b.

(** A write that fails: at the open under [/proc], and otherwise after the
    open, with nothing written. *)
Definition fault (name data : string) : writeFault :=
  if String.prefix "/proc/" name
  then OpenFails (PathError "open" name "permission denied")
  else WriteFails 0 (PathError "write" name "no space left on device").

#[local] Instance lib : Library := {|
  os_fault := fault;
  parseTree := list node;
  template_parse := parse;
  template_exec := exec;
  yaml_parse := validate;
  filepath_Join := Join;
  filepath_Dir := Dir;
  path_Base := Base
|}.

(** The minor number of a version [1.N]. *)
Fixpoint digits (acc : nat) (s : string) : option nat :=
  match s with
  | EmptyString => Some acc
  | String c s' =>
      match Ascii.is_nat c with
      | Some d => digits (10 * acc + d)%nat s'
      | None => None
      end
  end.

Definition minor (ver : string) : option nat :=
  match ver with
  | String "1" (String "." (String c rest)) => digits 0 (String c rest)
  | _ => None
  end.

Definition skip (oldest minimum : nat) (ver : string) : bool :=
  if String.eqb ver "latest" then false
  else match minor ver with
       | Some m => (m <? oldest)%nat || (m <? minimum)%nat
       | None => false
       end.

Fixpoint dashes (s : string) : string :=
  match s with
  | EmptyString => EmptyString
  | String c s' => String (if Ascii.eqb c "." then "-"%char else c) (dashes s')
  end.

#[local] Instance pkg : Package := {|
  Version := nat;
  latestVersion := "latest";
  autogeneratedHeader := "# AUTOGENERATED by https://git.k8s.io/kubeadm/kinder/ci/tools/update-workflows";
  skipVersion := skip;
  dashVer := dashes;
  ciLabelFor := fun v => v;
  imageVer := fun v => v;
  branchFor := fun v => v;
  sigReleaseVer := fun v => v
|}.

Definition settings : Settings.t :=
  {| Settings.PathConfig := "/ci/jobs/regular.yaml";
     Settings.PathTestInfra := "/test-infra/config/jobs";
     Settings.ImageTestInfra := "gcr.io/k8s-staging-test-infra/krte:latest" |}.

Definition latestJob : job.t :=
  job.mk "latest" "latest" "latest" "latest" "latest".
Definition oldJob : job.t :=
  job.mk "1.28" "1.28" "1.28" "1.28" "1.28".
Definition pinnedJob : job.t :=
  job.mk "1.31" "1.31" "1.31" "1.30" "1.31".

Definition group (jobs : list job.t) : jobGroup.t :=
  {| jobGroup.Name := "regular";
     jobGroup.TestInfraJobSpec_Template := "templates/testinfra/regular.yaml";
     jobGroup.TestInfraJobSpec_TargetFile := "out/kubeadm-kinder.yaml";
     jobGroup.KinderWorkflowSpec_TargetFile := "regular-{{ .KubernetesVersion }}.yaml";
     jobGroup.Jobs := jobs |}.

(** A job template of four lines. *)
Definition jobText : string :=
  "- name: kinder-{{ dashVer .KubernetesVersion }}" ++ strings.newline ++
  "  interval: {{ .JobInterval }}" ++ strings.newline ++
  "  annotations:" ++ strings.newline ++
  "{{ .AlertAnnotations }}" ++ strings.newline.

Definition disk (text : string) : fileSystem :=
  mkFS {[ "/ci/jobs/templates/testinfra/regular.yaml" := text ]} ∅.

(** A run with 1.28 as the oldest tracked version and 1.29 as the minimum:
    the entry pinned at 1.28 is skipped. *)
Definition run (cfg : jobGroup.t) (fs : fileSystem) : outcome unit :=
  processTestInfra settings cfg 28%nat 29%nat fs.

Definition threeJobs : list job.t := [latestJob; oldJob; pinnedJob].

(** The parse trees of the two templates of [group]. *)
Definition jobTree : list node :=
  [ Text "- name: kinder-"; Call "dashVer" "KubernetesVersion";
    Text (strings.newline ++ "  interval: "); Field "JobInterval";
    Text (strings.newline ++ "  annotations:" ++ strings.newline);
    Field "AlertAnnotations"; Text strings.newline ].
Definition nameTree : list node :=
  [ Text "regular-"; Field "KubernetesVersion"; Text ".yaml" ].

(** A job template that names a field the variables do not have, and one
    with a tab-indented line. *)
Definition unknownFieldText : string := "- name: {{ .Nope }}".
Definition tabbedText : string :=
  String (ascii_of_nat 9) "- name: kinder" ++ strings.newline.

End Sample.

(** * Properties *)

(** ** Running the monad *)

Lemma outcome_eta {A : Type} (o : outcome A) :
  o = Outcome (trace o) (final o) (result o).
Proof. destruct o; reflexivity. Qed.

Section Running.

Context {A B : Type}.

Lemma run_bind (m : M A) (k : A -> M B) (fs : fileSystem) :
  (m ≫= k) fs =
  match result (m fs) with
  | inl e => Outcome (trace (m fs)) (final (m fs)) (inl e)
  | inr a =>
      Outcome (trace (m fs) ++ trace (k a (final (m fs))))
              (final (k a (final (m fs))))
              (result (k a (final (m fs))))
  end.
Proof. reflexivity. Qed.

Lemma run_bind_ok (m : M A) (k : A -> M B) fs t fs' a :
  m fs = Outcome t fs' (inr a) ->
  (m ≫= k) fs = Outcome (t ++ trace (k a fs')) (final (k a fs')) (result (k a fs')).
Proof. intros H. rewrite run_bind, H. reflexivity. Qed.

Lemma run_bind_err (m : M A) (k : A -> M B) fs t fs' e :
  m fs = Outcome t fs' (inl e) ->
  (m ≫= k) fs = Outcome t fs' (inl e).
Proof. intros H. rewrite run_bind, H. reflexivity. Qed.

Lemma run_get (k : fileSystem -> M B) fs :
  (get_fs ≫= k) fs = k fs fs.
Proof.
  unfold mbind, M_bind, bind. cbn. symmetry. apply outcome_eta.
Qed.

Lemma run_emit (ev : event) (k : unit -> M B) fs :
  (emit ev ≫= k) fs = Outcome (ev :: trace (k tt fs)) (final (k tt fs)) (result (k tt fs)).
Proof. reflexivity. Qed.

End Running.

(** ** Strings *)

Section Strings.

Lemma append_nil (b : string) : ("" ++ b)%string = b.
Proof. reflexivity. Qed.

Lemma append_cons (c : ascii) (a b : string) :
  (String c a ++ b)%string = String c (a ++ b).
Proof. reflexivity. Qed.

Local Ltac ssimpl :=
  rewrite ?append_cons, ?append_nil in *;
  cbn [String.length substring strings.CountByte] in *.

Lemma length_app (a b : string) :
  String.length (a ++ b) = (String.length a + String.length b)%nat.
Proof. induction a as [|c a IH]; ssimpl; [ reflexivity | rewrite IH; reflexivity ]. Qed.

Lemma string_app_assoc (a b c : string) : ((a ++ b) ++ c)%string = (a ++ (b ++ c))%string.
Proof. induction a as [|x a IH]; ssimpl; [ reflexivity | rewrite IH; reflexivity ]. Qed.

Lemma substring_all (s : string) : substring 0 (String.length s) s = s.
Proof. induction s as [|c s IH]; ssimpl; [ reflexivity | rewrite IH; reflexivity ]. Qed.

Lemma substring_app_prefix (p s : string) :
  substring 0 (String.length p) (p ++ s) = p.
Proof.
  induction p as [|c p IH]; ssimpl.
  - destruct s; reflexivity.
  - rewrite IH. reflexivity.
Qed.

Lemma substring_app_suffix (p s : string) :
  substring (String.length p) (String.length s) (p ++ s) = s.
Proof.
  induction p as [|c p IH]; ssimpl.
  - apply substring_all.
  - exact IH.
Qed.

Lemma HasSuffix_app (p suffix : string) :
  strings.HasSuffix (p ++ suffix) suffix = true.
Proof.
  unfold strings.HasSuffix. rewrite length_app.
  replace (String.length p + String.length suffix - String.length suffix)%nat
    with (String.length p) by lia.
  rewrite substring_app_suffix, String.eqb_refl, andb_true_r.
  apply Nat.leb_le. lia.
Qed.

Lemma TrimSuffix_app (p suffix : string) :
  strings.TrimSuffix (p ++ suffix) suffix = p.
Proof.
  unfold strings.TrimSuffix. rewrite HasSuffix_app, length_app.
  replace (String.length p + String.length suffix - String.length suffix)%nat
    with (String.length p) by lia.
  apply substring_app_prefix.
Qed.

Lemma HasSuffix_inv (s suffix : string) :
  strings.HasSuffix s suffix = true -> exists p, s = (p ++ suffix)%string.
Proof.
  unfold strings.HasSuffix. intros H. apply andb_true_iff in H as [Hlen Heq].
  apply Nat.leb_le in Hlen. apply String.eqb_eq in Heq.
  revert Hlen Heq. generalize (String.length suffix) as m. intros m.
  revert m. induction s as [|c s IH]; intros m Hlen Heq.
  - ssimpl. assert (m = 0)%nat by lia. subst m. ssimpl. subst suffix.
    exists "". reflexivity.
  - cbn [String.length] in *.
    destruct (Nat.eq_dec m (S (String.length s))) as [->|Hm].
    + rewrite Nat.sub_diag in Heq. cbn [substring] in Heq.
      rewrite substring_all in Heq.
      exists "". rewrite <- Heq. reflexivity.
    + replace (S (String.length s) - m)%nat with (S (String.length s - m)) in Heq by lia.
      cbn [substring] in Heq.
      destruct (IH m) as [p Hp]; [ lia | exact Heq | ].
      exists (String c p). ssimpl. rewrite <- Hp. reflexivity.
Qed.

Lemma TrimSuffix_not_suffix (s suffix : string) :
  strings.HasSuffix s suffix = false -> strings.TrimSuffix s suffix = s.
Proof. unfold strings.TrimSuffix. intros ->. reflexivity. Qed.

Lemma CountByte_app (a b : string) (c : ascii) :
  strings.CountByte (a ++ b) c = (strings.CountByte a c + strings.CountByte b c)%nat.
Proof. induction a as [|x a IH]; ssimpl; [ reflexivity | rewrite IH; lia ]. Qed.

Lemma unquote_quoted (inner : string) :
  unquote (strings.dquote ++ inner ++ strings.dquote) = inner.
Proof.
  unfold unquote, strings.dquote. ssimpl. rewrite length_app. ssimpl.
  replace (S (String.length inner + 1) - 2)%nat with (String.length inner) by lia.
  apply (substring_app_prefix inner).
Qed.

Lemma Contains_middle (pre s post : string) :
  strings.Contains (pre ++ s ++ post) s.
Proof. exists pre, post. reflexivity. Qed.

End Strings.

Section Properties.

Context `{Lib : Library} `{Pkg : Package}.

Lemma run_log {B : Type} format args (k : unit -> M B) fs :
  (log_Infof format args ≫= k) fs =
  Outcome (Log format args :: trace (k tt fs)) (final (k tt fs)) (result (k tt fs)).
Proof. reflexivity. Qed.

(** *** One template execution *)

Lemma template_Execute_ok t buf data out fs :
  template_run t data = (out, None) ->
  template_Execute t buf data fs =
  Outcome [TemplateExecute (Name t) data] fs (inr (bytes.Write buf out)).
Proof.
  intros H. unfold template_Execute. rewrite run_emit, H. reflexivity.
Qed.

Lemma template_Execute_err t buf data out e fs :
  template_run t data = (out, Some e) ->
  template_Execute t buf data fs =
  Outcome [TemplateExecute (Name t) data] fs (inl e).
Proof.
  intros H. unfold template_Execute. rewrite run_emit, H. reflexivity.
Qed.

(** *** The body of the loop, case by case *)

Section Loop.

Variables (settings : Settings.t) (cfg : jobGroup.t) (oldestVer minVer : Version).
Variables (templateFileName templateJob : Template).

Local Abbreviation body :=
  (processJob settings cfg oldestVer minVer templateFileName templateJob).
Local Abbreviation loop :=
  (processJobs settings cfg oldestVer minVer templateFileName templateJob).
Local Abbreviation entry_run :=
  (entry_run settings cfg oldestVer minVer templateFileName templateJob).
Local Abbreviation loop_run :=
  (loop_run settings cfg oldestVer minVer templateFileName templateJob).
Local Abbreviation executed :=
  (executed settings cfg templateFileName templateJob).

Lemma processJob_skipped i j str fs :
  skipVersion oldestVer minVer (job.KubernetesVersion j) = true ->
  body i j str fs =
  Outcome [ Log "processing Job index %d, %#v" [LInt i; LJob j];
            Log "skipping Job index %d, %#v" [LInt i; LJob j] ]
          fs (inr str).
Proof.
  intros H. unfold processJob. rewrite run_log, H. reflexivity.
Qed.

Lemma processJob_file_name_fails i j str fs out e :
  skipVersion oldestVer minVer (job.KubernetesVersion j) = false ->
  template_run templateFileName (initVars settings cfg j) = (out, Some e) ->
  body i j str fs =
  Outcome [ Log "processing Job index %d, %#v" [LInt i; LJob j];
            TemplateExecute (Name templateFileName) (initVars settings cfg j) ]
          fs (inl e).
Proof.
  intros Hs Hf. unfold processJob. rewrite run_log, Hs.
  rewrite (run_bind_err _ _ _ _ _ _ (template_Execute_err _ _ _ _ _ _ Hf)).
  reflexivity.
Qed.

Lemma processJob_job_fails i j str fs rendered out e :
  skipVersion oldestVer minVer (job.KubernetesVersion j) = false ->
  template_run templateFileName (initVars settings cfg j) = (rendered, None) ->
  template_run templateJob (resolveVars settings cfg j rendered) = (out, Some e) ->
  body i j str fs =
  Outcome [ Log "processing Job index %d, %#v" [LInt i; LJob j];
            TemplateExecute (Name templateFileName) (initVars settings cfg j);
            TemplateExecute (Name templateJob) (resolveVars settings cfg j rendered) ]
          fs (inl e).
Proof.
  intros Hs Hf Hj. unfold processJob. rewrite run_log, Hs.
  rewrite (run_bind_ok _ _ _ _ _ _ (template_Execute_ok _ _ _ _ _ Hf)).
  unfold renderJob, bytes.String, bytes.Write, bytes.empty. cbn [String.append].
  rewrite (run_bind_err _ _ _ _ _ _ (template_Execute_err _ _ _ _ _ _ Hj)).
  reflexivity.
Qed.

Lemma processJob_rendered i j str fs rendered out :
  skipVersion oldestVer minVer (job.KubernetesVersion j) = false ->
  template_run templateFileName (initVars settings cfg j) = (rendered, None) ->
  template_run templateJob (resolveVars settings cfg j rendered) = (out, None) ->
  body i j str fs =
  Outcome [ Log "processing Job index %d, %#v" [LInt i; LJob j];
            TemplateExecute (Name templateFileName) (initVars settings cfg j);
            TemplateExecute (Name templateJob) (resolveVars settings cfg j rendered) ]
          fs (inr (str ++ strings.newline ++ out)).
Proof.
  intros Hs Hf Hj. unfold processJob. rewrite run_log, Hs.
  rewrite (run_bind_ok _ _ _ _ _ _ (template_Execute_ok _ _ _ _ _ Hf)).
  unfold renderJob, bytes.String, bytes.Write, bytes.empty. cbn [String.append].
  rewrite (run_bind_ok _ _ _ _ _ _ (template_Execute_ok _ _ _ _ _ Hj)).
  reflexivity.
Qed.

Lemma processJob_run i j str :
  exists t r, entry_run i j str t r /\ forall fs, body i j str fs = Outcome t fs r.
Proof.
  destruct (skipVersion oldestVer minVer (job.KubernetesVersion j)) eqn:Hs.
  { eexists _, _. split; [ apply entry_skipped; exact Hs |].
    intros fs. apply processJob_skipped; exact Hs. }
  destruct (template_run templateFileName (initVars settings cfg j))
    as [rendered [e|]] eqn:Hf.
  { eexists _, _. split; [ eapply entry_file_name_fails; eassumption |].
    intros fs. eapply processJob_file_name_fails; eassumption. }
  destruct (template_run templateJob (resolveVars settings cfg j rendered))
    as [out [e|]] eqn:Hj.
  { eexists _, _. split; [ eapply entry_job_fails; eassumption |].
    intros fs. eapply processJob_job_fails; eassumption. }
  eexists _, _. split; [ eapply entry_rendered; eassumption |].
  intros fs. eapply processJob_rendered; eassumption.
Qed.

Lemma processJobs_run jobs : forall i str,
  exists t r, loop_run i jobs str t r /\ forall fs, loop i jobs str fs = Outcome t fs r.
Proof.
  induction jobs as [|j jobs IH]; intros i str.
  - exists [], (inr str). split; [ constructor | reflexivity ].
  - destruct (processJob_run i j str) as (t & r & Ht & Hrun).
    destruct r as [e|str'].
    + exists t, (inl e). split; [ apply loop_stop; exact Ht |].
      intros fs. cbn [processJobs].
      apply run_bind_err. apply Hrun.
    + destruct (IH (i + 1) str') as (t' & r & Ht' & Hrun').
      exists (t ++ t')%list, r. split; [ eapply loop_next; eassumption |].
      intros fs. cbn [processJobs].
      rewrite (run_bind_ok _ _ _ _ _ _ (Hrun fs)).
      rewrite Hrun'. reflexivity.
Qed.

(** The relations say what the functions do, on every file system. *)
Lemma entry_run_sound i j str t r :
  entry_run i j str t r -> forall fs, body i j str fs = Outcome t fs r.
Proof.
  intros H fs. destruct H.
  - apply processJob_skipped; assumption.
  - eapply processJob_file_name_fails; eassumption.
  - eapply processJob_job_fails; eassumption.
  - eapply processJob_rendered; eassumption.
Qed.

Lemma loop_run_sound i jobs str t r :
  loop_run i jobs str t r -> forall fs, loop i jobs str fs = Outcome t fs r.
Proof.
  induction 1 as [i str | i j jobs str t e He | i j jobs str t str' t' r He Hl IH];
    intros fs; cbn [processJobs].
  - reflexivity.
  - apply run_bind_err. apply (entry_run_sound _ _ _ _ _ He).
  - rewrite (run_bind_ok _ _ _ _ _ _ (entry_run_sound _ _ _ _ _ He fs)).
    rewrite IH. reflexivity.
Qed.

(** The loop logs and executes templates, and does nothing else. *)
Lemma entry_run_events i j str t r :
  entry_run i j str t r ->
  Forall (fun e => is_log e || is_execute e = true) t.
Proof. destruct 1; repeat constructor. Qed.

Lemma loop_run_events i jobs str t r :
  loop_run i jobs str t r ->
  Forall (fun e => is_log e || is_execute e = true) t.
Proof.
  induction 1 as [| i j jobs str t e He | i j jobs str t str' t' r He Hl IH].
  - constructor.
  - eapply entry_run_events; eassumption.
  - apply Forall_app. split; [ eapply entry_run_events; eassumption | exact IH ].
Qed.

Lemma entry_run_executions i j str t r n v :
  entry_run i j str t r ->
  In (TemplateExecute n v) t ->
  skipVersion oldestVer minVer (job.KubernetesVersion j) = false /\ executed j n v.
Proof.
  intros H Hin. destruct H; cbn in Hin;
    repeat match goal with
           | H : _ \/ _ |- _ => destruct H
           | H : False |- _ => destruct H
           | H : Log _ _ = TemplateExecute _ _ |- _ => discriminate H
           | H : TemplateExecute _ _ = TemplateExecute _ _ |- _ =>
               injection H as <- <-
           end;
    (split; [ assumption | ]); try apply executed_file_name;
    apply executed_job; assumption.
Qed.

Lemma loop_run_executions i jobs str t r n v :
  loop_run i jobs str t r ->
  In (TemplateExecute n v) t ->
  exists j, In j jobs
    /\ skipVersion oldestVer minVer (job.KubernetesVersion j) = false
    /\ executed j n v.
Proof.
  induction 1 as [| i j jobs str t e He | i j jobs str t str' t' r He Hl IH]; intros Hin.
  - destruct Hin.
  - exists j. split; [ left; reflexivity | eapply entry_run_executions; eassumption ].
  - apply in_app_or in Hin. destruct Hin as [Hin|Hin].
    + exists j. split; [ left; reflexivity | eapply entry_run_executions; eassumption ].
    + destruct (IH Hin) as (j' & Hj' & H'). exists j'. split; [ right; exact Hj' | exact H' ].
Qed.

(** An execution that fails ends the loop with its error. *)
Lemma entry_run_failed_execution i j str t r n v out e :
  Name templateFileName <> Name templateJob ->
  entry_run i j str t r ->
  In (TemplateExecute n v) t ->
  (n = Name templateFileName /\ template_run templateFileName v = (out, Some e))
  \/ (n = Name templateJob /\ template_run templateJob v = (out, Some e)) ->
  r = inl e.
Proof.
  intros Hne H Hin Hfail. destruct H; cbn in Hin;
    repeat match goal with
           | H : _ \/ _ |- _ => destruct H
           | H : _ /\ _ |- _ => destruct H
           | H : False |- _ => destruct H
           | H : Log _ _ = TemplateExecute _ _ |- _ => discriminate H
           | H : TemplateExecute _ _ = TemplateExecute _ _ |- _ =>
               injection H as <- <-
           end;
    congruence.
Qed.

Lemma loop_run_failed_execution i jobs str t r n v out e :
  Name templateFileName <> Name templateJob ->
  loop_run i jobs str t r ->
  In (TemplateExecute n v) t ->
  (n = Name templateFileName /\ template_run templateFileName v = (out, Some e))
  \/ (n = Name templateJob /\ template_run templateJob v = (out, Some e)) ->
  r = inl e.
Proof.
  intros Hne H. induction H as [| i j jobs str t e' He | i j jobs str t str' t' r He Hl IH];
    intros Hin Hfail.
  - destruct Hin.
  - eapply entry_run_failed_execution; eassumption.
  - apply in_app_or in Hin. destruct Hin as [Hin|Hin].
    + pose proof (entry_run_failed_execution _ _ _ _ _ _ _ _ _ Hne He Hin Hfail).
      discriminate.
    + apply IH; assumption.
Qed.

(** The index of an entry is only logged. *)
Lemma entry_run_reindex i i' j str t r :
  entry_run i j str t r ->
  exists t', entry_run i' j str t' r /\ effects t = effects t'.
Proof.
  destruct 1.
  - eexists. split; [ apply entry_skipped; assumption | reflexivity ].
  - eexists. split; [ eapply entry_file_name_fails; eassumption | reflexivity ].
  - eexists. split; [ eapply entry_job_fails; eassumption | reflexivity ].
  - eexists. split; [ eapply entry_rendered; eassumption | reflexivity ].
Qed.

Lemma effects_app (t t' : list event) :
  effects (t ++ t') = (effects t ++ effects t')%list.
Proof. apply List.filter_app. Qed.

(** Dropping the entries the filter skips changes nothing but the log. *)
Lemma loop_run_filter i jobs str t r :
  loop_run i jobs str t r ->
  forall i', exists t',
    loop_run i' (List.filter (kept oldestVer minVer) jobs) str t' r
    /\ effects t = effects t'.
Proof.
  induction 1 as [i str | i j jobs str t e He | i j jobs str t str' t' r He Hl IH];
    intros i'; cbn [List.filter].
  - exists []. split; [ constructor | reflexivity ].
  - destruct (entry_run_reindex i i' _ _ _ _ He) as (t2 & He2 & Hfx).
    assert (Hk : kept oldestVer minVer j = true).
    { unfold kept. inversion He; subst;
        match goal with H : skipVersion _ _ _ = false |- _ => rewrite H end; reflexivity. }
    rewrite Hk. exists t2. split; [ apply loop_stop; exact He2 | exact Hfx ].
  - destruct (skipVersion oldestVer minVer (job.KubernetesVersion j)) eqn:Hs.
    + assert (Hk : kept oldestVer minVer j = false) by (unfold kept; rewrite Hs; reflexivity).
      rewrite Hk. inversion He; subst; try congruence.
      destruct (IH i') as (t2 & Hl2 & Hfx). exists t2. split; [ exact Hl2 | ].
      rewrite effects_app. exact Hfx.
    + assert (Hk : kept oldestVer minVer j = true) by (unfold kept; rewrite Hs; reflexivity).
      rewrite Hk.
      destruct (entry_run_reindex i i' _ _ _ _ He) as (t2 & He2 & Hfx).
      destruct (IH (i' + 1)) as (t3 & Hl3 & Hfx3).
      exists (t2 ++ t3)%list. split; [ eapply loop_next; eassumption | ].
      rewrite !effects_app, Hfx, Hfx3. reflexivity.
Qed.

End Loop.

(** *** The whole function, case by case *)

Lemma template_Parse_ok t text tree fs :
  template_parse (Funcs_of t) text = inr tree ->
  template_Parse t text fs =
  Outcome [TemplateParse (Name t) text] fs
          (inr (mkTemplate (Name t) (Funcs_of t) (Some tree))).
Proof.
  intros H. unfold template_Parse. rewrite run_emit, H. reflexivity.
Qed.

Lemma template_Parse_err t text e fs :
  template_parse (Funcs_of t) text = inl e ->
  template_Parse t text fs = Outcome [TemplateParse (Name t) text] fs (inl e).
Proof.
  intros H. unfold template_Parse. rewrite run_emit, H. reflexivity.
Qed.

Lemma os_ReadFile_ok name data fs :
  files fs !! name = Some data ->
  os_ReadFile name fs = Outcome [ReadFile name] fs (inr data).
Proof.
  intros H. unfold os_ReadFile. rewrite run_emit, run_get, H. reflexivity.
Qed.

Lemma os_ReadFile_err name fs :
  files fs !! name = None ->
  os_ReadFile name fs =
  Outcome [ReadFile name] fs (inl (PathError "open" name "no such file or directory")).
Proof.
  intros H. unfold os_ReadFile. rewrite run_emit, run_get, H. reflexivity.
Qed.

Lemma os_WriteFile_locked name data perm fs :
  name ∈ locked fs ->
  os_WriteFile name data perm fs =
  Outcome [WriteFile name data perm] (failedWrite fs name data)
          (inl (faultError (os_fault name data))).
Proof.
  intros H. unfold os_WriteFile. rewrite run_emit, run_get.
  destruct (decide (name ∈ locked fs)); [ reflexivity | contradiction ].
Qed.

Lemma os_WriteFile_ok name data perm fs :
  name ∉ locked fs ->
  os_WriteFile name data perm fs =
  Outcome [WriteFile name data perm]
          (mkFS (<[name := data]> (files fs)) (locked fs)) (inr tt).
Proof.
  intros H. unfold os_WriteFile. rewrite run_emit, run_get.
  destruct (decide (name ∈ locked fs)); [ contradiction | reflexivity ].
Qed.

Lemma yaml_Unmarshal_run y fs :
  yaml_Unmarshal y fs = Outcome [Unmarshal y] fs (inr (yaml_parse y)).
Proof. reflexivity. Qed.

Lemma validateAndWrite_invalid settings cfg str e fs :
  yaml_parse str = Some e ->
  validateAndWrite settings cfg str fs =
  Outcome [Unmarshal str] fs (inl (validationError e str)).
Proof.
  intros H. unfold validateAndWrite.
  rewrite (run_bind_ok _ _ _ _ _ _ (yaml_Unmarshal_run _ _)), H. reflexivity.
Qed.

Lemma validateAndWrite_locked settings cfg str fs :
  yaml_parse str = None ->
  outputPath settings cfg ∈ locked fs ->
  validateAndWrite settings cfg str fs =
  Outcome (committing settings cfg str)
          (failedWrite fs (outputPath settings cfg) str)
          (inl (faultError (os_fault (outputPath settings cfg) str))).
Proof.
  intros H Hl. unfold validateAndWrite.
  rewrite (run_bind_ok _ _ _ _ _ _ (yaml_Unmarshal_run _ _)), H.
  rewrite run_log, (os_WriteFile_locked _ _ _ _ Hl). reflexivity.
Qed.

Lemma validateAndWrite_written settings cfg str fs :
  yaml_parse str = None ->
  outputPath settings cfg ∉ locked fs ->
  validateAndWrite settings cfg str fs =
  Outcome (committing settings cfg str)
          (mkFS (<[outputPath settings cfg := str]> (files fs)) (locked fs))
          (inr tt).
Proof.
  intros H Hl. unfold validateAndWrite.
  rewrite (run_bind_ok _ _ _ _ _ _ (yaml_Unmarshal_run _ _)), H.
  rewrite run_log, (os_WriteFile_ok _ _ _ _ Hl). reflexivity.
Qed.

Lemma length_zero_empty (s : string) :
  (String.length s =? 0)%nat = true <-> s = "".
Proof.
  destruct s; cbn; split; intros H; try reflexivity; discriminate.
Qed.

(** Every run of [processTestInfra] is one of the eight runs of
    [pipeline_run]. *)
Lemma processTestInfra_run settings cfg oldestVer minVer fs :
  pipeline_run settings cfg oldestVer minVer fs
               (processTestInfra settings cfg oldestVer minVer fs).
Proof.
  unfold processTestInfra. rewrite run_log.
  destruct (String.length (jobGroup.TestInfraJobSpec_Template cfg) =? 0)%nat eqn:Hlen.
  { apply length_zero_empty in Hlen. apply run_no_template. exact Hlen. }
  assert (Hne : jobGroup.TestInfraJobSpec_Template cfg <> "").
  { intros E. apply length_zero_empty in E. congruence. }
  destruct (files fs !! templatePath settings cfg) as [tBytes|] eqn:Hread.
  2:{ rewrite (run_bind_err _ _ _ _ _ _ (os_ReadFile_err _ _ Hread)).
      apply run_read_fails; assumption. }
  rewrite (run_bind_ok _ _ _ _ _ _ (os_ReadFile_ok _ _ _ Hread)).
  destruct (template_parse jobFuncMap tBytes) as [e|treeJob] eqn:HpJ.
  { rewrite (run_bind_err _ _ _ _ _ _ (template_Parse_err (template_Funcs (template_New "job-template") jobFuncMap) _ _ _ HpJ)).
    eapply run_job_parse_fails; eassumption. }
  rewrite (run_bind_ok _ _ _ _ _ _ (template_Parse_ok (template_Funcs (template_New "job-template") jobFuncMap) _ _ _ HpJ)).
  destruct (template_parse [] (jobGroup.KinderWorkflowSpec_TargetFile cfg))
    as [e|treeName] eqn:HpN.
  { rewrite (run_bind_err _ _ _ _ _ _ (template_Parse_err (template_New _) _ _ _ HpN)).
    eapply run_name_parse_fails; eassumption. }
  rewrite (run_bind_ok _ _ _ _ _ _ (template_Parse_ok (template_New _) _ _ _ HpN)).
  assert (Hl : loaded settings cfg fs tBytes treeJob treeName) by (repeat split; assumption).
  destruct (processJobs_run settings cfg oldestVer minVer
              (fileNameTemplate treeName) (jobTemplate treeJob)
              (jobGroup.Jobs cfg) 0 initialText) as (t & r & Hloop & Hrun).
  change (mkTemplate (Name (template_New "file-name")) (Funcs_of (template_New "file-name"))
                     (Some treeName)) with (fileNameTemplate treeName).
  change (mkTemplate (Name (template_Funcs (template_New "job-template") jobFuncMap))
                     (Funcs_of (template_Funcs (template_New "job-template") jobFuncMap))
                     (Some treeJob)) with (jobTemplate treeJob).
  destruct r as [e|str].
  { rewrite (run_bind_err _ _ _ _ _ _ (Hrun fs)).
    apply (run_loop_fails _ _ _ _ _ _ _ _ _ _ Hl Hloop). }
  rewrite (run_bind_ok _ _ _ _ _ _ (Hrun fs)).
  destruct (yaml_parse str) as [e|] eqn:Hy.
  { rewrite (validateAndWrite_invalid _ _ _ _ _ Hy).
    apply (run_invalid _ _ _ _ _ _ _ _ _ _ _ Hl Hloop Hy). }
  destruct (decide (outputPath settings cfg ∈ locked fs)) as [Hin|Hout].
  - rewrite (validateAndWrite_locked _ _ _ _ Hy Hin).
    apply (run_write_fails _ _ _ _ _ _ _ _ _ _ Hl Hloop Hy Hin).
  - rewrite (validateAndWrite_written _ _ _ _ Hy Hout).
    apply (run_written _ _ _ _ _ _ _ _ _ _ Hl Hloop Hy Hout).
Qed.

Lemma length_nonzero (s : string) :
  s <> "" -> (String.length s =? 0)%nat = false.
Proof. destruct s; [ congruence | reflexivity ]. Qed.

(** Conversely, each of the eight runs is what the function does. *)
Lemma pipeline_run_sound settings cfg oldestVer minVer fs o :
  pipeline_run settings cfg oldestVer minVer fs o ->
  processTestInfra settings cfg oldestVer minVer fs = o.
Proof.
  intros H. unfold processTestInfra. rewrite run_log.
  destruct H as [ He | Hne Hread | tBytes e Hne Hread HpJ | tBytes treeJob e Hne Hread HpJ HpN
                | tBytes treeJob treeName t e (Hne & Hread & HpJ & HpN) Hloop
                | tBytes treeJob treeName t str e (Hne & Hread & HpJ & HpN) Hloop Hy
                | tBytes treeJob treeName t str (Hne & Hread & HpJ & HpN) Hloop Hy Hlock
                | tBytes treeJob treeName t str (Hne & Hread & HpJ & HpN) Hloop Hy Hlock ].
  { rewrite He. reflexivity. }
  all: rewrite (length_nonzero _ Hne).
  { rewrite (run_bind_err _ _ _ _ _ _ (os_ReadFile_err _ _ Hread)). reflexivity. }
  all: rewrite (run_bind_ok _ _ _ _ _ _ (os_ReadFile_ok _ _ _ Hread)).
  { rewrite (run_bind_err _ _ _ _ _ _
               (template_Parse_err (template_Funcs (template_New "job-template") jobFuncMap)
                                   _ _ _ HpJ)).
    reflexivity. }
  all: rewrite (run_bind_ok _ _ _ _ _ _
                  (template_Parse_ok (template_Funcs (template_New "job-template") jobFuncMap)
                                     _ _ _ HpJ)).
  { rewrite (run_bind_err _ _ _ _ _ _ (template_Parse_err (template_New _) _ _ _ HpN)).
    reflexivity. }
  all: rewrite (run_bind_ok _ _ _ _ _ _ (template_Parse_ok (template_New _) _ _ _ HpN)).
  all: change (mkTemplate (Name (template_New "file-name"))
                          (Funcs_of (template_New "file-name")) (Some treeName))
         with (fileNameTemplate treeName).
  all: change (mkTemplate (Name (template_Funcs (template_New "job-template") jobFuncMap))
                          (Funcs_of (template_Funcs (template_New "job-template") jobFuncMap))
                          (Some treeJob))
         with (jobTemplate treeJob).
  { rewrite (run_bind_err _ _ _ _ _ _ (loop_run_sound _ _ _ _ _ _ _ _ _ _ _ Hloop _)).
    reflexivity. }
  all: rewrite (run_bind_ok _ _ _ _ _ _ (loop_run_sound _ _ _ _ _ _ _ _ _ _ _ Hloop _)).
  - rewrite (validateAndWrite_invalid _ _ _ _ _ Hy). cbn [trace final result].
    unfold loading. reflexivity.
  - rewrite (validateAndWrite_locked _ _ _ _ Hy Hlock). reflexivity.
  - rewrite (validateAndWrite_written _ _ _ _ Hy Hlock). reflexivity.
Qed.

(** Membership in the traces of the runs. *)
Local Ltac split_in H :=
  repeat match type of H with
         | In _ (_ ++ _) => apply in_app_or in H; destruct H as [H|H]
         | In _ (loading _ _ _) => unfold loading in H
         | In _ (committing _ _ _) => unfold committing in H
         | In _ (_ :: _) => destruct H as [H|H]
         | In _ [] => destruct H
         | _ = _ => discriminate H
         end.

(** Every template execution of a run is that of an entry of the group
    which the filter keeps. *)
Lemma pipeline_executions settings cfg oldestVer minVer fs n v :
  In (TemplateExecute n v) (trace (processTestInfra settings cfg oldestVer minVer fs)) ->
  exists tBytes treeJob treeName j,
    loaded settings cfg fs tBytes treeJob treeName
    /\ In j (jobGroup.Jobs cfg)
    /\ skipVersion oldestVer minVer (job.KubernetesVersion j) = false
    /\ executed settings cfg (fileNameTemplate treeName) (jobTemplate treeJob) j n v.
Proof.
  intros Hin.
  pose proof (processTestInfra_run settings cfg oldestVer minVer fs) as Hrun.
  remember (processTestInfra settings cfg oldestVer minVer fs) as o eqn:Ho. clear Ho.
  destruct Hrun as [ | | | | tBytes treeJob treeName t e Hl Hloop
                   | tBytes treeJob treeName t str e Hl Hloop Hy
                   | tBytes treeJob treeName t str Hl Hloop Hy Hlock
                   | tBytes treeJob treeName t str Hl Hloop Hy Hlock ];
    cbn [trace] in Hin; split_in Hin.
  all: destruct (loop_run_executions _ _ _ _ _ _ _ _ _ _ _ _ _ Hloop Hin) as (j & Hj & Hs & Hex).
  all: exists tBytes, treeJob, treeName, j.
  all: split; [ exact Hl | split; [ exact Hj | split; [ exact Hs | exact Hex ] ] ].
Qed.

(** The executions of the job template are on resolved variables. *)
Lemma pipeline_job_executions settings cfg oldestVer minVer fs vars :
  In (TemplateExecute "job-template" vars)
     (trace (processTestInfra settings cfg oldestVer minVer fs)) ->
  exists tBytes treeJob treeName j rendered,
    loaded settings cfg fs tBytes treeJob treeName
    /\ In j (jobGroup.Jobs cfg)
    /\ skipVersion oldestVer minVer (job.KubernetesVersion j) = false
    /\ template_run (fileNameTemplate treeName) (initVars settings cfg j) = (rendered, None)
    /\ vars = resolveVars settings cfg j rendered.
Proof.
  intros Hin.
  destruct (pipeline_executions _ _ _ _ _ _ _ Hin)
    as (tBytes & treeJob & treeName & j & Hl & Hj & Hs & Hex).
  inversion Hex as [| rendered Hrun Hn Hv].
  exists tBytes, treeJob, treeName, j, rendered.
  split; [ exact Hl | split; [ exact Hj | split; [ exact Hs | split; [ exact Hrun | reflexivity ]]]].
Qed.

(** The fields of the resolved variables. *)
Lemma resolveVars_fields settings cfg j rendered :
  let vars := resolveVars settings cfg j rendered in
  templateVars.KubernetesVersion vars = job.KubernetesVersion j
  /\ templateVars.KubeadmVersion vars = job.KubeadmVersion j
  /\ templateVars.WorkflowFile vars = workflowFile rendered
  /\ templateVars.JobInterval vars = fst (fst (periodAndAlerts j))
  /\ templateVars.AlertAnnotations vars =
       alertAnnotations (snd (fst (periodAndAlerts j))) (snd (periodAndAlerts j)).
Proof.
  unfold resolveVars. destruct (periodAndAlerts j) as [[interval failures] staleResults].
  cbn. repeat split; reflexivity.
Qed.

(** The two tiers of the policy. *)
Lemma periodAndAlerts_latest j :
  job.KubernetesVersion j = latestVersion \/ job.KubeadmVersion j = latestVersion ->
  periodAndAlerts j = ("2h", 8, 16).
Proof.
  intros H. unfold periodAndAlerts.
  destruct H as [H|H]; rewrite H, String.eqb_refl; [ reflexivity | ].
  rewrite orb_true_r. reflexivity.
Qed.

Lemma periodAndAlerts_pinned j :
  job.KubernetesVersion j <> latestVersion ->
  job.KubeadmVersion j <> latestVersion ->
  periodAndAlerts j = ("12h", 4, 48).
Proof.
  intros H1 H2. unfold periodAndAlerts.
  apply String.eqb_neq in H1, H2. rewrite H1, H2. reflexivity.
Qed.

(** The format of lines 110-111 prints the block with four spaces. *)
Lemma alertAnnotations_block failures staleResults :
  alertAnnotations failures staleResults = alertBlock 4 failures staleResults.
Proof.
  unfold alertBlock, annotation. rewrite !string_app_assoc. reflexivity.
Qed.

(** ** The claims *)

(** C1.  Every execution of the job template in a run is on the variables
    of an entry of the group.  If the Kubernetes version or the kubeadm
    version of the entry is the latest sentinel, the interval is 2h, the
    thresholds are 8 and 16 and the alert block embeds 8 and 16; if neither
    is, the interval is 12h, the thresholds are 4 and 48 and the block
    embeds 4 and 48. *)
Theorem C1_interval_and_alert_policy settings cfg oldestVer minVer fs vars :
  In (TemplateExecute "job-template" vars)
     (trace (processTestInfra settings cfg oldestVer minVer fs)) ->
  exists j rendered,
    In j (jobGroup.Jobs cfg)
    /\ vars = resolveVars settings cfg j rendered
    /\ (job.KubernetesVersion j = latestVersion \/ job.KubeadmVersion j = latestVersion ->
        periodAndAlerts j = ("2h", 8, 16)
        /\ templateVars.JobInterval vars = "2h"
        /\ templateVars.AlertAnnotations vars = alertBlock 4 8 16)
    /\ (job.KubernetesVersion j <> latestVersion /\ job.KubeadmVersion j <> latestVersion ->
        periodAndAlerts j = ("12h", 4, 48)
        /\ templateVars.JobInterval vars = "12h"
        /\ templateVars.AlertAnnotations vars = alertBlock 4 4 48).
Proof.
  intros Hin.
  destruct (pipeline_job_executions _ _ _ _ _ _ Hin)
    as (tBytes & treeJob & treeName & j & rendered & _ & Hj & _ & _ & ->).
  exists j, rendered. split; [ exact Hj | ]. split; [ reflexivity | ].
  destruct (resolveVars_fields settings cfg j rendered) as (_ & _ & _ & Hi & Ha).
  split.
  - intros Hlatest. pose proof (periodAndAlerts_latest j Hlatest) as Hp.
    rewrite Hi, Ha, Hp. cbn [fst snd]. rewrite alertAnnotations_block.
    repeat split; reflexivity.
  - intros [H1 H2]. pose proof (periodAndAlerts_pinned j H1 H2) as Hp.
    rewrite Hi, Ha, Hp. cbn [fst snd]. rewrite alertAnnotations_block.
    repeat split; reflexivity.
Qed.

(** The quoting of line 96. *)
Lemma workflowFile_unquote rendered :
  unquote (workflowFile rendered) = strings.TrimSuffix rendered ".yaml".
Proof. unfold workflowFile. apply unquote_quoted. Qed.

Lemma workflowFile_quotes rendered :
  strings.CountByte (workflowFile rendered) (ascii_of_nat 34) =
  (2 + strings.CountByte (strings.TrimSuffix rendered ".yaml") (ascii_of_nat 34))%nat.
Proof.
  unfold workflowFile. rewrite !CountByte_app.
  change (strings.CountByte strings.dquote (ascii_of_nat 34)) with 1%nat. lia.
Qed.

(** C3, amended.  Every execution of the job template is on the variables
    resolved for an entry of the group, and their WorkflowFile is the
    rendering of the file-name template on the initial variables of that
    same entry, without one trailing [.yaml] if it has one, between one
    leading and one trailing double quote.  When the rendering is
    [stem ++ .yaml] the quoted value is [stem]: it does not end in [.yaml]
    unless [stem] itself does. *)
Theorem C3_workflow_file settings cfg oldestVer minVer fs vars :
  In (TemplateExecute "job-template" vars)
     (trace (processTestInfra settings cfg oldestVer minVer fs)) ->
  exists treeName j rendered,
    template_parse [] (jobGroup.KinderWorkflowSpec_TargetFile cfg) = inr treeName
    /\ In j (jobGroup.Jobs cfg)
    /\ template_run (fileNameTemplate treeName) (initVars settings cfg j) = (rendered, None)
    /\ vars = resolveVars settings cfg j rendered
    /\ templateVars.WorkflowFile vars =
         (strings.dquote ++ strings.TrimSuffix rendered ".yaml" ++ strings.dquote)%string
    /\ unquote (templateVars.WorkflowFile vars) = strings.TrimSuffix rendered ".yaml"
    /\ strings.CountByte (templateVars.WorkflowFile vars) (ascii_of_nat 34) =
         (2 + strings.CountByte (unquote (templateVars.WorkflowFile vars)) (ascii_of_nat 34))%nat
    /\ (strings.HasSuffix rendered ".yaml" = false ->
         unquote (templateVars.WorkflowFile vars) = rendered)
    /\ (strings.HasSuffix rendered ".yaml" = true ->
         exists stem : string,
           rendered = (stem ++ ".yaml")%string
           /\ unquote (templateVars.WorkflowFile vars) = stem)
    /\ (forall stem : string,
          rendered = (stem ++ ".yaml")%string ->
          unquote (templateVars.WorkflowFile vars) = stem
          /\ (strings.HasSuffix stem ".yaml" = false ->
              strings.HasSuffix (unquote (templateVars.WorkflowFile vars)) ".yaml" = false)).
Proof.
  intros Hin.
  destruct (pipeline_job_executions _ _ _ _ _ _ Hin)
    as (tBytes & treeJob & treeName & j & rendered & (_ & _ & _ & Hp) & Hj & _ & Hrun & ->).
  exists treeName, j, rendered.
  destruct (resolveVars_fields settings cfg j rendered) as (_ & _ & Hw & _).
  rewrite Hw, workflowFile_unquote.
  split; [ exact Hp | ]. split; [ exact Hj | ]. split; [ exact Hrun | ].
  split; [ reflexivity | ].
  split; [ reflexivity | ]. split; [ reflexivity | ].
  split; [ apply workflowFile_quotes | ].
  split; [ apply TrimSuffix_not_suffix | ].
  split.
  { intros Hs. destruct (HasSuffix_inv _ _ Hs) as [stem ->].
    exists stem. split; [ reflexivity | apply TrimSuffix_app ]. }
  intros stem ->. rewrite TrimSuffix_app. split; [ reflexivity | intros H; exact H ].
Qed.

(** C4, amended.  Every execution of the job template is on the variables
    resolved for an entry of the group, and their alert annotations are two
    lines, the failures-to-alert key then the stale-results-hours key, each
    with the threshold of that same entry as a quoted number and each
    indented by 4 spaces. *)
Theorem C4_alert_annotations_block settings cfg oldestVer minVer fs vars :
  In (TemplateExecute "job-template" vars)
     (trace (processTestInfra settings cfg oldestVer minVer fs)) ->
  exists j rendered interval failures staleResults,
    In j (jobGroup.Jobs cfg)
    /\ vars = resolveVars settings cfg j rendered
    /\ periodAndAlerts j = (interval, failures, staleResults)
    /\ templateVars.AlertAnnotations vars = alertBlock 4 failures staleResults
    /\ strings.Lines (templateVars.AlertAnnotations vars) =
         [ (strings.Repeat_space 4 ++ annotation "testgrid-num-failures-to-alert" failures)%string;
           (strings.Repeat_space 4
              ++ annotation "testgrid-alert-stale-results-hours" staleResults)%string ].
Proof.
  intros Hin.
  destruct (pipeline_job_executions _ _ _ _ _ _ Hin)
    as (tBytes & treeJob & treeName & j & rendered & _ & Hj & _ & _ & ->).
  destruct (resolveVars_fields settings cfg j rendered) as (_ & _ & _ & _ & Ha).
  rewrite Ha. clear Ha.
  exists j, rendered. unfold periodAndAlerts.
  destruct (String.eqb (job.KubernetesVersion j) latestVersion
            || String.eqb (job.KubeadmVersion j) latestVersion).
  - exists "2h", 8, 16. cbn [fst snd]. rewrite alertAnnotations_block.
    split; [ exact Hj | ]. repeat split; reflexivity.
  - exists "12h", 4, 48. cbn [fst snd]. rewrite alertAnnotations_block.
    split; [ exact Hj | ]. repeat split; reflexivity.
Qed.

(** C6.  With an empty template reference the function returns nil, leaves
    the file system as it was, and does nothing but log two lines: no file
    is read, no template is parsed or executed, nothing is written. *)
Theorem C6_empty_template_is_noop settings cfg oldestVer minVer fs :
  jobGroup.TestInfraJobSpec_Template cfg = "" ->
  let o := processTestInfra settings cfg oldestVer minVer fs in
  result o = inr tt
  /\ final o = fs
  /\ Forall (fun e => is_log e = true) (trace o)
  /\ length (trace o) = 2%nat.
Proof.
  intros H o. subst o. unfold processTestInfra. rewrite run_log, H. cbn.
  repeat split; repeat constructor.
Qed.

(** The loop reads one field of the group, the target file. *)
Lemma initVars_cfg settings cfg cfg' j :
  jobGroup.TestInfraJobSpec_TargetFile cfg = jobGroup.TestInfraJobSpec_TargetFile cfg' ->
  initVars settings cfg j = initVars settings cfg' j.
Proof. intros H. unfold initVars. rewrite H. reflexivity. Qed.

Lemma resolveVars_cfg settings cfg cfg' j rendered :
  jobGroup.TestInfraJobSpec_TargetFile cfg = jobGroup.TestInfraJobSpec_TargetFile cfg' ->
  resolveVars settings cfg j rendered = resolveVars settings cfg' j rendered.
Proof. intros H. unfold resolveVars. rewrite (initVars_cfg _ _ _ _ H). reflexivity. Qed.

Lemma entry_run_cfg settings cfg cfg' oldestVer minVer tF tJ i j str t r :
  jobGroup.TestInfraJobSpec_TargetFile cfg = jobGroup.TestInfraJobSpec_TargetFile cfg' ->
  entry_run settings cfg oldestVer minVer tF tJ i j str t r ->
  entry_run settings cfg' oldestVer minVer tF tJ i j str t r.
Proof.
  intros E H. destruct H as [Hs | out e Hs Hf | rendered out e Hs Hf Hj | rendered out Hs Hf Hj].
  - apply entry_skipped. exact Hs.
  - rewrite (initVars_cfg settings cfg cfg' j E) in *.
    eapply entry_file_name_fails; eassumption.
  - rewrite (initVars_cfg settings cfg cfg' j E) in *.
    rewrite (resolveVars_cfg settings cfg cfg' j rendered E) in *.
    eapply entry_job_fails; eassumption.
  - rewrite (initVars_cfg settings cfg cfg' j E) in *.
    rewrite (resolveVars_cfg settings cfg cfg' j rendered E) in *.
    eapply entry_rendered; eassumption.
Qed.

Lemma loop_run_cfg settings cfg cfg' oldestVer minVer tF tJ i jobs str t r :
  jobGroup.TestInfraJobSpec_TargetFile cfg = jobGroup.TestInfraJobSpec_TargetFile cfg' ->
  loop_run settings cfg oldestVer minVer tF tJ i jobs str t r ->
  loop_run settings cfg' oldestVer minVer tF tJ i jobs str t r.
Proof.
  intros E. induction 1 as [| i j jobs str t e He | i j jobs str t str' t' r He Hl IH].
  - constructor.
  - apply loop_stop. eapply entry_run_cfg; eassumption.
  - eapply loop_next; [ eapply entry_run_cfg; eassumption | exact IH ].
Qed.

(** A run on the group without the entries the filter skips differs in its
    log lines only. *)
Lemma processTestInfra_filter settings cfg oldestVer minVer fs :
  let o := processTestInfra settings cfg oldestVer minVer fs in
  let o' := processTestInfra settings
              (jobGroup.withJobs cfg (List.filter (kept oldestVer minVer) (jobGroup.Jobs cfg)))
              oldestVer minVer fs in
  result o = result o' /\ final o = final o' /\ effects (trace o) = effects (trace o').
Proof.
  intros o o'. subst o o'.
  set (cfg' := jobGroup.withJobs cfg (List.filter (kept oldestVer minVer) (jobGroup.Jobs cfg))).
  pose proof (processTestInfra_run settings cfg oldestVer minVer fs) as Hrun.
  remember (processTestInfra settings cfg oldestVer minVer fs) as o eqn:Ho. clear Ho.
  assert (Hfilter : forall tF tJ t r,
             loop_run settings cfg oldestVer minVer tF tJ 0 (jobGroup.Jobs cfg) initialText t r ->
             exists t', loop_run settings cfg' oldestVer minVer tF tJ 0 (jobGroup.Jobs cfg')
                                 initialText t' r
                        /\ effects t = effects t').
  { intros tF tJ t r H. destruct (loop_run_filter _ _ _ _ _ _ _ _ _ _ _ H 0) as (t' & H' & E).
    exists t'. split; [ | exact E ].
    apply (loop_run_cfg settings cfg cfg'); [ reflexivity | exact H' ]. }
  destruct Hrun as [ He | Hne Hread | tBytes e Hne Hread HpJ | tBytes treeJob e Hne Hread HpJ HpN
                   | tBytes treeJob treeName t e Hl Hloop
                   | tBytes treeJob treeName t str e Hl Hloop Hy
                   | tBytes treeJob treeName t str Hl Hloop Hy Hlock
                   | tBytes treeJob treeName t str Hl Hloop Hy Hlock ].
  - rewrite (pipeline_run_sound _ _ _ _ _ _
               (run_no_template settings cfg' oldestVer minVer fs He)).
    repeat split; reflexivity.
  - rewrite (pipeline_run_sound _ _ _ _ _ _
               (run_read_fails settings cfg' oldestVer minVer fs Hne Hread)).
    repeat split; reflexivity.
  - rewrite (pipeline_run_sound _ _ _ _ _ _
               (run_job_parse_fails settings cfg' oldestVer minVer fs _ _ Hne Hread HpJ)).
    repeat split; reflexivity.
  - rewrite (pipeline_run_sound _ _ _ _ _ _
               (run_name_parse_fails settings cfg' oldestVer minVer fs _ _ _ Hne Hread HpJ HpN)).
    repeat split; reflexivity.
  - destruct (Hfilter _ _ _ _ Hloop) as (t' & Hloop' & E).
    rewrite (pipeline_run_sound _ _ _ _ _ _
               (run_loop_fails settings cfg' oldestVer minVer fs _ _ _ _ _ Hl Hloop')).
    cbn [trace final result]. rewrite !effects_app, E. repeat split; reflexivity.
  - destruct (Hfilter _ _ _ _ Hloop) as (t' & Hloop' & E).
    rewrite (pipeline_run_sound _ _ _ _ _ _
               (run_invalid settings cfg' oldestVer minVer fs _ _ _ _ _ _ Hl Hloop' Hy)).
    cbn [trace final result]. rewrite !effects_app, E. repeat split; reflexivity.
  - destruct (Hfilter _ _ _ _ Hloop) as (t' & Hloop' & E).
    rewrite (pipeline_run_sound _ _ _ _ _ _
               (run_write_fails settings cfg' oldestVer minVer fs _ _ _ _ _ Hl Hloop' Hy Hlock)).
    cbn [trace final result]. rewrite !effects_app, E. repeat split; reflexivity.
  - destruct (Hfilter _ _ _ _ Hloop) as (t' & Hloop' & E).
    rewrite (pipeline_run_sound _ _ _ _ _ _
               (run_written settings cfg' oldestVer minVer fs _ _ _ _ _ Hl Hloop' Hy Hlock)).
    cbn [trace final result]. rewrite !effects_app, E. repeat split; reflexivity.
Qed.

(** C5.  An entry whose version the filter skips adds two log lines to the
    run and nothing else: no template is executed for it and the accumulated
    text stays as it was.  No template is ever executed on a version the
    filter skips.  The decision is taken entry by entry: the run is the run
    on the group without the skipped entries, log lines apart. *)
Theorem C5_skipped_entries_leave_no_trace settings cfg oldestVer minVer fs :
  let o := processTestInfra settings cfg oldestVer minVer fs in
  (forall templateFileName templateJob i j str fs',
      skipVersion oldestVer minVer (job.KubernetesVersion j) = true ->
      processJob settings cfg oldestVer minVer templateFileName templateJob i j str fs' =
      Outcome [ Log "processing Job index %d, %#v" [LInt i; LJob j];
                Log "skipping Job index %d, %#v" [LInt i; LJob j] ]
              fs' (inr str))
  /\ (forall n v,
        In (TemplateExecute n v) (trace o) ->
        skipVersion oldestVer minVer (templateVars.KubernetesVersion v) = false)
  /\ (let o' := processTestInfra settings
                  (jobGroup.withJobs cfg
                     (List.filter (kept oldestVer minVer) (jobGroup.Jobs cfg)))
                  oldestVer minVer fs in
      result o = result o' /\ final o = final o' /\ effects (trace o) = effects (trace o')).
Proof.
  intros o. subst o. split; [ | split ].
  - intros tF tJ i j str fs' H. apply processJob_skipped. exact H.
  - intros n v Hin.
    destruct (pipeline_executions _ _ _ _ _ _ _ Hin)
      as (tBytes & treeJob & treeName & j & _ & _ & Hs & Hex).
    destruct Hex as [| rendered Hrun].
    + exact Hs.
    + destruct (resolveVars_fields settings cfg j rendered) as (Hk & _).
      rewrite Hk. exact Hs.
  - apply processTestInfra_filter.
Qed.

(** C10.  The filter is asked about the Kubernetes version of the entry and
    nothing else: two entries with the same Kubernetes version, whatever
    their other fields, are both skipped (two log lines, the text as it was)
    or both rendered (the file-name template is executed for each). *)
Theorem C10_skip_reads_only_kubernetes_version
    settings cfg oldestVer minVer templateFileName templateJob i str fs j1 j2 :
  job.KubernetesVersion j1 = job.KubernetesVersion j2 ->
  let run j := processJob settings cfg oldestVer minVer templateFileName templateJob
                          i j str fs in
  let skipped j :=
    run j = Outcome [ Log "processing Job index %d, %#v" [LInt i; LJob j];
                      Log "skipping Job index %d, %#v" [LInt i; LJob j] ]
                    fs (inr str) in
  let rendered j :=
    In (TemplateExecute (Name templateFileName) (initVars settings cfg j)) (trace (run j)) in
  (skipped j1 /\ skipped j2 /\ ~ rendered j1 /\ ~ rendered j2)
  \/ (rendered j1 /\ rendered j2 /\ ~ skipped j1 /\ ~ skipped j2).
Proof.
  intros Hk run skipped rendered. subst run skipped rendered. cbv beta.
  destruct (skipVersion oldestVer minVer (job.KubernetesVersion j1)) eqn:Hs1.
  - assert (Hs2 : skipVersion oldestVer minVer (job.KubernetesVersion j2) = true)
      by (rewrite <- Hk; exact Hs1).
    left.
    rewrite (processJob_skipped _ _ _ _ _ _ _ _ _ _ Hs1).
    rewrite (processJob_skipped _ _ _ _ _ _ _ _ _ _ Hs2).
    split; [ reflexivity | ]. split; [ reflexivity | ].
    split; cbn; intros [H|[H|[]]]; discriminate H.
  - assert (Hs2 : skipVersion oldestVer minVer (job.KubernetesVersion j2) = false)
      by (rewrite <- Hk; exact Hs1).
    right.
    destruct (processJob_run settings cfg oldestVer minVer templateFileName templateJob
                i j1 str) as (t1 & r1 & He1 & Hrun1).
    destruct (processJob_run settings cfg oldestVer minVer templateFileName templateJob
                i j2 str) as (t2 & r2 & He2 & Hrun2).
    rewrite Hrun1, Hrun2. cbn [trace].
    destruct He1; try congruence; destruct He2; try congruence;
      (split; [ cbn; auto | ]); (split; [ cbn; auto | ]);
      split; intros Heq; discriminate Heq.
Qed.

(** The loop never reads, validates or writes. *)
Lemma loop_events_In settings cfg oldestVer minVer tF tJ i jobs str t r ev :
  loop_run settings cfg oldestVer minVer tF tJ i jobs str t r ->
  In ev t -> is_log ev || is_execute ev = true.
Proof.
  intros H Hin. pose proof (loop_run_events _ _ _ _ _ _ _ _ _ _ _ H) as Hall.
  rewrite Forall_forall in Hall. apply Hall. apply list_elem_of_In. exact Hin.
Qed.

Lemma loop_events_not_write settings cfg oldestVer minVer tF tJ i jobs str t r :
  loop_run settings cfg oldestVer minVer tF tJ i jobs str t r ->
  Forall (fun e => is_write e = false) t.
Proof.
  intros H. eapply Forall_impl; [ eapply loop_run_events; exact H | ].
  intros [] Hev; cbn in *; congruence.
Qed.

Local Ltac no_loop_event Hloop Hin :=
  pose proof (loop_events_In _ _ _ _ _ _ _ _ _ _ _ _ Hloop Hin) as Hbad;
  cbn in Hbad; discriminate Hbad.

Local Ltac solve_quiet :=
  split; [ reflexivity | ]; cbn [trace];
  repeat (apply Forall_app; split);
  first [ eapply loop_events_not_write; eassumption
        | unfold loading, committing; repeat constructor ].

Lemma loaded_unique settings cfg fs tBytes treeJob treeName tBytes' treeJob' treeName' :
  loaded settings cfg fs tBytes treeJob treeName ->
  loaded settings cfg fs tBytes' treeJob' treeName' ->
  tBytes = tBytes' /\ treeJob = treeJob' /\ treeName = treeName'.
Proof.
  intros (_ & Hr & Hj & Hn) (_ & Hr' & Hj' & Hn').
  assert (tBytes = tBytes') by congruence. subst tBytes'.
  split; [ reflexivity | split; congruence ].
Qed.

Lemma validationError_message e str :
  errors.Error (validationError e str) =
  (strings.newline ++ str ++ strings.newline ++ ": " ++ errors.Error e)%string.
Proof.
  unfold validationError, errors.Wrapf. cbn [errors.Error].
  change (fmt.Sprintf (strings.newline ++ "%s" ++ strings.newline) [fmt.Str str])
    with (strings.newline ++ (str ++ strings.newline))%string.
  rewrite !string_app_assoc. reflexivity.
Qed.

(** C7.  When the text given to the validator does not parse, the function
    returns the parse error wrapped with that text: the message of the
    returned error is a newline, the whole text, a newline, a colon and the
    message of the parse error.  The text is the complete text the loop
    accumulated.  Nothing is written. *)
Theorem C7_validation_error_carries_text settings cfg oldestVer minVer fs str e :
  let o := processTestInfra settings cfg oldestVer minVer fs in
  In (Unmarshal str) (trace o) ->
  yaml_parse str = Some e ->
  result o = inl (validationError e str)
  /\ errors.Error (validationError e str) =
       (strings.newline ++ str ++ strings.newline ++ ": " ++ errors.Error e)%string
  /\ strings.Contains (errors.Error (validationError e str)) str
  /\ errors.Cause (validationError e str) = errors.Cause e
  /\ (exists tBytes treeJob treeName t,
         loaded settings cfg fs tBytes treeJob treeName
         /\ loop_run settings cfg oldestVer minVer
                      (fileNameTemplate treeName) (jobTemplate treeJob)
                      0 (jobGroup.Jobs cfg) initialText t (inr str))
  /\ quiet fs o.
Proof.
  intros o Hin Hy. subst o.
  pose proof (processTestInfra_run settings cfg oldestVer minVer fs) as Hrun.
  remember (processTestInfra settings cfg oldestVer minVer fs) as o eqn:Ho. clear Ho.
  destruct Hrun as [ | | | | tBytes treeJob treeName t e' Hl Hloop
                   | tBytes treeJob treeName t str' e' Hl Hloop Hy'
                   | tBytes treeJob treeName t str' Hl Hloop Hy' Hlock
                   | tBytes treeJob treeName t str' Hl Hloop Hy' Hlock ];
    cbn [trace] in Hin; split_in Hin; try no_loop_event Hloop Hin.
  - injection Hin as ->. assert (e' = e) by congruence. subst e'.
    split; [ reflexivity | ]. split; [ apply validationError_message | ].
    split; [ rewrite validationError_message; apply Contains_middle | ].
    split; [ reflexivity | ].
    split; [ exists tBytes, treeJob, treeName, t; split; assumption | solve_quiet ].
  - injection Hin as ->. congruence.
  - injection Hin as ->. congruence.
Qed.

(** C2.  Each failure is returned and leaves the file system as it was,
    with no write in the trace: a template file that cannot be read, a job
    template or a file-name template that does not parse, an execution of
    either template that fails, a text that does not validate (the parse
    error is returned wrapped, and is the cause of the returned error).  A
    write happens only as the last step of a run, at the output path, with
    the text the validator has just accepted. *)
Theorem C2_errors_returned_nothing_written settings cfg oldestVer minVer fs :
  let o := processTestInfra settings cfg oldestVer minVer fs in
  (jobGroup.TestInfraJobSpec_Template cfg <> "" ->
   files fs !! templatePath settings cfg = None ->
   result o = inl (PathError "open" (templatePath settings cfg) "no such file or directory")
   /\ quiet fs o)
  /\ (forall tBytes e,
        jobGroup.TestInfraJobSpec_Template cfg <> "" ->
        files fs !! templatePath settings cfg = Some tBytes ->
        template_parse jobFuncMap tBytes = inl e ->
        result o = inl e /\ quiet fs o)
  /\ (forall tBytes treeJob e,
        jobGroup.TestInfraJobSpec_Template cfg <> "" ->
        files fs !! templatePath settings cfg = Some tBytes ->
        template_parse jobFuncMap tBytes = inr treeJob ->
        template_parse [] (jobGroup.KinderWorkflowSpec_TargetFile cfg) = inl e ->
        result o = inl e /\ quiet fs o)
  /\ (forall tBytes treeJob treeName n v out e,
        loaded settings cfg fs tBytes treeJob treeName ->
        In (TemplateExecute n v) (trace o) ->
        (n = "file-name" /\ template_run (fileNameTemplate treeName) v = (out, Some e))
        \/ (n = "job-template" /\ template_run (jobTemplate treeJob) v = (out, Some e)) ->
        result o = inl e /\ quiet fs o)
  /\ (forall str e,
        In (Unmarshal str) (trace o) ->
        yaml_parse str = Some e ->
        result o = inl (validationError e str)
        /\ errors.Cause (validationError e str) = errors.Cause e
        /\ quiet fs o)
  /\ (forall p data perm,
        In (WriteFile p data perm) (trace o) ->
        yaml_parse data = None
        /\ p = outputPath settings cfg
        /\ exists before,
             trace o = (before ++ committing settings cfg data)%list
             /\ Forall (fun e => is_write e = false) before
             /\ exists treeJob treeName t,
                  loop_run settings cfg oldestVer minVer
                           (fileNameTemplate treeName) (jobTemplate treeJob)
                           0 (jobGroup.Jobs cfg) initialText t (inr data)).
Proof.
  intros o. subst o.
  pose proof (processTestInfra_run settings cfg oldestVer minVer fs) as Hrun.
  remember (processTestInfra settings cfg oldestVer minVer fs) as o eqn:Ho. clear Ho.
  repeat match goal with |- _ /\ _ => split end.
  - intros Hne Hnone.
    destruct Hrun as [ | | | | ? ? ? ? ? (? & ? & ? & ?) | ? ? ? ? ? ? (? & ? & ? & ?)
                     | ? ? ? ? ? (? & ? & ? & ?) | ? ? ? ? ? (? & ? & ? & ?) ];
      try congruence.
    split; [ reflexivity | solve_quiet ].
  - intros tBytes e Hne Hread Hp.
    destruct Hrun as [ | | | | ? ? ? ? ? (? & ? & ? & ?) | ? ? ? ? ? ? (? & ? & ? & ?)
                     | ? ? ? ? ? (? & ? & ? & ?) | ? ? ? ? ? (? & ? & ? & ?) ];
      try congruence.
    split; [ cbn [result]; congruence | solve_quiet ].
  - intros tBytes treeJob e Hne Hread HpJ HpN.
    destruct Hrun as [ | | | | ? ? ? ? ? (? & ? & ? & ?) | ? ? ? ? ? ? (? & ? & ? & ?)
                     | ? ? ? ? ? (? & ? & ? & ?) | ? ? ? ? ? (? & ? & ? & ?) ];
      try congruence.
    split; [ cbn [result]; congruence | solve_quiet ].
  - intros tBytes treeJob treeName n v out e Hl Hin Hfail.
    assert (Hnames : Name (fileNameTemplate treeName) <> Name (jobTemplate treeJob))
      by (cbn; discriminate).
    destruct Hrun as [ | | | | tBytes' treeJob' treeName' t e' Hl' Hloop
                     | tBytes' treeJob' treeName' t str' e' Hl' Hloop Hy'
                     | tBytes' treeJob' treeName' t str' Hl' Hloop Hy' Hlock
                     | tBytes' treeJob' treeName' t str' Hl' Hloop Hy' Hlock ];
      cbn [trace] in Hin; split_in Hin.
    all: destruct (loaded_unique _ _ _ _ _ _ _ _ _ Hl Hl') as (<- & <- & <-).
    all: pose proof (loop_run_failed_execution _ _ _ _ _ _ _ _ _ _ _ n v out e
                       Hnames Hloop Hin Hfail) as Hr.
    all: try discriminate Hr.
    injection Hr as ->. split; [ reflexivity | solve_quiet ].
  - intros str e Hin Hy.
    destruct Hrun as [ | | | | tBytes treeJob treeName t e' Hl Hloop
                     | tBytes treeJob treeName t str' e' Hl Hloop Hy'
                     | tBytes treeJob treeName t str' Hl Hloop Hy' Hlock
                     | tBytes treeJob treeName t str' Hl Hloop Hy' Hlock ];
      cbn [trace] in Hin; split_in Hin; try no_loop_event Hloop Hin;
      injection Hin as ->; try congruence.
    assert (e' = e) by congruence. subst e'.
    split; [ reflexivity | ]. split; [ reflexivity | solve_quiet ].
  - intros p data perm Hin.
    destruct Hrun as [ | | | | tBytes treeJob treeName t e' Hl Hloop
                     | tBytes treeJob treeName t str' e' Hl Hloop Hy'
                     | tBytes treeJob treeName t str' Hl Hloop Hy' Hlock
                     | tBytes treeJob treeName t str' Hl Hloop Hy' Hlock ];
      cbn [trace] in Hin; split_in Hin; try no_loop_event Hloop Hin;
      injection Hin as <- <- <-.
    all: split; [ exact Hy' | ]; split; [ reflexivity | ].
    all: exists (loading settings cfg tBytes ++ t)%list.
    all: split; [ rewrite <- app_assoc; reflexivity | ].
    all: split; [ apply Forall_app; split;
                  [ unfold loading; repeat constructor
                  | eapply loop_events_not_write; eassumption ] | ].
    all: exists treeJob, treeName, t; exact Hloop.
Qed.

(** The rendering step, whatever the buffer holds and whatever the files. *)
Lemma renderJob_run templateJob buf vars str fs :
  renderJob templateJob buf vars str fs =
  Outcome [TemplateExecute (Name templateJob) vars] fs
          match template_run templateJob vars with
          | (out, None) => inr (str ++ strings.newline ++ out)%string
          | (_, Some e) => inl e
          end.
Proof.
  unfold renderJob. destruct (template_run templateJob vars) as [out [e|]] eqn:Hrun.
  - rewrite (run_bind_err _ _ _ _ _ _ (template_Execute_err _ _ _ _ _ _ Hrun)). reflexivity.
  - rewrite (run_bind_ok _ _ _ _ _ _ (template_Execute_ok _ _ _ _ _ Hrun)). reflexivity.
Qed.

(** C8.  The rendering step on a template and a variable record gives the
    same result and the same trace each time, whatever the buffer held
    before and whatever the file system: the text it appends is what the
    template prints on these variables.  Two runs of the whole function
    from file systems that hold the same template file (and agree on
    whether the output path can be written) return the same, do the same,
    and write the same bytes. *)
Theorem C8_rendering_deterministic :
  (forall (templateJob : Template) vars str buf1 buf2 fs1 fs2,
      let o1 := renderJob templateJob buf1 vars str fs1 in
      let o2 := renderJob templateJob buf2 vars str fs2 in
      result o1 = result o2 /\ trace o1 = trace o2 /\ final o1 = fs1 /\ final o2 = fs2
      /\ (forall out, template_run templateJob vars = (out, None) ->
                      result o1 = inr (str ++ strings.newline ++ out)%string))
  /\ (forall settings cfg oldestVer minVer fs1 fs2,
        files fs1 !! templatePath settings cfg = files fs2 !! templatePath settings cfg ->
        (outputPath settings cfg ∈ locked fs1 <-> outputPath settings cfg ∈ locked fs2) ->
        let o1 := processTestInfra settings cfg oldestVer minVer fs1 in
        let o2 := processTestInfra settings cfg oldestVer minVer fs2 in
        result o1 = result o2 /\ trace o1 = trace o2
        /\ (result o1 = inr tt ->
            jobGroup.TestInfraJobSpec_Template cfg <> "" ->
            files (final o1) !! outputPath settings cfg =
            files (final o2) !! outputPath settings cfg)).
Proof.
  split.
  - intros templateJob vars str buf1 buf2 fs1 fs2 o1 o2. subst o1 o2.
    rewrite !renderJob_run. cbn [result trace final].
    repeat split. intros out ->. reflexivity.
  - intros settings cfg oldestVer minVer fs1 fs2 Hfile Hlock o1 o2. subst o1 o2.
    pose proof (processTestInfra_run settings cfg oldestVer minVer fs1) as Hrun.
    remember (processTestInfra settings cfg oldestVer minVer fs1) as o eqn:Ho. clear Ho.
    destruct Hrun as [ He | Hne Hread | tBytes e Hne Hread HpJ
                     | tBytes treeJob e Hne Hread HpJ HpN
                     | tBytes treeJob treeName t e (Hne & Hread & HpJ & HpN) Hloop
                     | tBytes treeJob treeName t str e (Hne & Hread & HpJ & HpN) Hloop Hy
                     | tBytes treeJob treeName t str (Hne & Hread & HpJ & HpN) Hloop Hy Hl
                     | tBytes treeJob treeName t str (Hne & Hread & HpJ & HpN) Hloop Hy Hl ];
      try rewrite Hfile in Hread.
    + rewrite (pipeline_run_sound _ _ _ _ _ _
                 (run_no_template settings cfg oldestVer minVer fs2 He)).
      repeat split. intros _ Hne. congruence.
    + rewrite (pipeline_run_sound _ _ _ _ _ _
                 (run_read_fails settings cfg oldestVer minVer fs2 Hne Hread)).
      repeat split. discriminate.
    + rewrite (pipeline_run_sound _ _ _ _ _ _
                 (run_job_parse_fails settings cfg oldestVer minVer fs2 _ _ Hne Hread HpJ)).
      repeat split. discriminate.
    + rewrite (pipeline_run_sound _ _ _ _ _ _
                 (run_name_parse_fails settings cfg oldestVer minVer fs2 _ _ _
                                       Hne Hread HpJ HpN)).
      repeat split. discriminate.
    + rewrite (pipeline_run_sound _ _ _ _ _ _
                 (run_loop_fails settings cfg oldestVer minVer fs2 _ _ _ _ _
                                 (conj Hne (conj Hread (conj HpJ HpN))) Hloop)).
      repeat split. discriminate.
    + rewrite (pipeline_run_sound _ _ _ _ _ _
                 (run_invalid settings cfg oldestVer minVer fs2 _ _ _ _ _ _
                              (conj Hne (conj Hread (conj HpJ HpN))) Hloop Hy)).
      repeat split. discriminate.
    + rewrite (pipeline_run_sound _ _ _ _ _ _
                 (run_write_fails settings cfg oldestVer minVer fs2 _ _ _ _ _
                                  (conj Hne (conj Hread (conj HpJ HpN))) Hloop Hy
                                  (proj1 Hlock Hl))).
      repeat split. discriminate.
    + assert (Hl2 : outputPath settings cfg ∉ locked fs2).
      { intros Hin. apply Hl. apply Hlock. exact Hin. }
      rewrite (pipeline_run_sound _ _ _ _ _ _
                 (run_written settings cfg oldestVer minVer fs2 _ _ _ _ _
                              (conj Hne (conj Hread (conj HpJ HpN))) Hloop Hy Hl2)).
      repeat split. intros _ _. cbn [final files].
      rewrite !lookup_insert_eq. reflexivity.
Qed.

(** A loop whose entries are all skipped only logs. *)
Lemma loop_all_skipped settings cfg oldestVer minVer tF tJ i jobs str t r :
  (forall j, In j jobs -> skipVersion oldestVer minVer (job.KubernetesVersion j) = true) ->
  loop_run settings cfg oldestVer minVer tF tJ i jobs str t r ->
  r = inr str /\ Forall (fun e => is_log e = true) t.
Proof.
  intros Hall H.
  induction H as [| i j jobs str t e He | i j jobs str t str' t' r He Hl IH].
  - split; [ reflexivity | constructor ].
  - pose proof (Hall j (or_introl eq_refl)) as Hs. inversion He; congruence.
  - pose proof (Hall j (or_introl eq_refl)) as Hs.
    inversion He; subst; try congruence.
    destruct IH as [-> Ht']. { intros j' Hj'. apply Hall. right. exact Hj'. }
    split; [ reflexivity | ]. apply Forall_app. split; [ repeat constructor | exact Ht' ].
Qed.

(** C9, amended.  For a group with a template reference, whose entries
    (if any) are all skipped: no template is executed and whatever is
    written is written at the output path and is the autogenerated header, a
    newline, the root key [periodics:] and a newline, with no job block.
    When the template file is read, both templates parse, that text
    validates and the write does not fail, the function returns nil and the
    file at the output path holds exactly that text, whatever it held
    before. *)
Theorem C9_header_only_file settings cfg oldestVer minVer fs :
  jobGroup.TestInfraJobSpec_Template cfg <> "" ->
  (forall j, In j (jobGroup.Jobs cfg) ->
             skipVersion oldestVer minVer (job.KubernetesVersion j) = true) ->
  let o := processTestInfra settings cfg oldestVer minVer fs in
  let text := (autogeneratedHeader ++ strings.newline ++ "periodics:" ++ strings.newline)%string in
  (forall p data perm,
      In (WriteFile p data perm) (trace o) ->
      p = outputPath settings cfg /\ data = text)
  /\ Forall (fun e => is_execute e = false) (trace o)
  /\ (forall tBytes treeJob treeName,
        loaded settings cfg fs tBytes treeJob treeName ->
        yaml_parse text = None ->
        outputPath settings cfg ∉ locked fs ->
        result o = inr tt
        /\ In (WriteFile (outputPath settings cfg) text 420) (trace o)
        /\ files (final o) = <[outputPath settings cfg := text]> (files fs)
        /\ files (final o) !! outputPath settings cfg = Some text
        /\ locked (final o) = locked fs).
Proof.
  intros Hne Hall o text. subst o.
  assert (Htext : initialText = text) by reflexivity.
  pose proof (processTestInfra_run settings cfg oldestVer minVer fs) as Hrun.
  remember (processTestInfra settings cfg oldestVer minVer fs) as o eqn:Ho. clear Ho.
  assert (Hlog : forall t : list event,
             Forall (fun e => is_log e = true) t -> Forall (fun e => is_execute e = false) t).
  { intros t Ht. eapply Forall_impl; [ exact Ht | ]. intros [] Hev; cbn in *; congruence. }
  destruct Hrun as [ He | Hne' Hread | tBytes e Hne' Hread HpJ
                   | tBytes treeJob e Hne' Hread HpJ HpN
                   | tBytes treeJob treeName t e Hl Hloop
                   | tBytes treeJob treeName t str e Hl Hloop Hy
                   | tBytes treeJob treeName t str Hl Hloop Hy Hlock
                   | tBytes treeJob treeName t str Hl Hloop Hy Hlock ];
    try (destruct (loop_all_skipped _ _ _ _ _ _ _ _ _ _ _ Hall Hloop) as [Hr Ht]);
    try discriminate Hr; try (injection Hr as ->); try rewrite Htext in *.
  - congruence.
  - split; [ intros p data perm Hin; cbn [trace] in Hin; split_in Hin | ].
    split; [ repeat constructor | ].
    intros tBytes treeJob treeName (_ & Hread' & _). congruence.
  - split; [ intros p data perm Hin; cbn [trace] in Hin; split_in Hin | ].
    split; [ repeat constructor | ].
    intros tBytes' treeJob treeName (_ & Hread' & HpJ' & _). congruence.
  - split; [ intros p data perm Hin; cbn [trace] in Hin; split_in Hin | ].
    split; [ unfold loading; repeat constructor | ].
    intros tBytes' treeJob' treeName (_ & Hread' & HpJ' & HpN'). congruence.
  - split.
    { intros p data perm Hin. cbn [trace] in Hin. split_in Hin.
      no_loop_event Hloop Hin. }
    split.
    { cbn [trace]. repeat (apply Forall_app; split);
        [ unfold loading; repeat constructor | apply Hlog; exact Ht | repeat constructor ]. }
    intros tBytes' treeJob' treeName' _ Hy' _. congruence.
  - split.
    { intros p data perm Hin. cbn [trace] in Hin. split_in Hin.
      - no_loop_event Hloop Hin.
      - injection Hin as <- <- <-. split; reflexivity. }
    split.
    { cbn [trace]. repeat (apply Forall_app; split);
        [ unfold loading; repeat constructor | apply Hlog; exact Ht
        | unfold committing; repeat constructor ]. }
    intros tBytes' treeJob' treeName' _ _ Hfree. contradiction.
  - split.
    { intros p data perm Hin. cbn [trace] in Hin. split_in Hin.
      - no_loop_event Hloop Hin.
      - injection Hin as <- <- <-. split; reflexivity. }
    split.
    { cbn [trace]. repeat (apply Forall_app; split);
        [ unfold loading; repeat constructor | apply Hlog; exact Ht
        | unfold committing; repeat constructor ]. }
    intros tBytes' treeJob' treeName' _ _ _. cbn [result trace final files locked].
    split; [ reflexivity | ].
    split; [ apply in_or_app; right; apply in_or_app; right;
             unfold committing; right; right; left; reflexivity | ].
    split; [ reflexivity | ]. split; [ apply lookup_insert_eq | reflexivity ].
Qed.

(** ** Further properties of the run *)

Lemma string_app_nil_r (a : string) : (a ++ "")%string = a.
Proof.
  induction a as [|x a IH]; [ reflexivity | ].
  rewrite append_cons, IH. reflexivity.
Qed.

(** In the trace of the loop, what is not a log line is an execution. *)
Lemma loop_effects_executions settings cfg oldestVer minVer tF tJ i jobs str t r :
  loop_run settings cfg oldestVer minVer tF tJ i jobs str t r ->
  List.filter is_execute t = effects t.
Proof.
  intros H. pose proof (loop_run_events _ _ _ _ _ _ _ _ _ _ _ H) as Hall.
  clear H. induction Hall as [| ev t Hev _ IH]; [ reflexivity | ].
  unfold effects in *. cbn [List.filter]. rewrite IH.
  destruct ev; cbn in *; try reflexivity; discriminate Hev.
Qed.

(** A loop that completes: the text is the text it started from followed
    by the blocks of the entries the filter keeps, in their order, and the
    executions are those of these entries, in their order. *)
Lemma loop_run_completed settings cfg oldestVer minVer tF tJ i jobs str t r :
  loop_run settings cfg oldestVer minVer tF tJ i jobs str t r ->
  forall str', r = inr str' ->
  exists blocks,
    Forall2 (fun j b => entryBlock settings cfg tF tJ j = Some b)
            (List.filter (kept oldestVer minVer) jobs) blocks
    /\ str' = (str ++ joinBlocks blocks)%string
    /\ effects t =
       flat_map (entryExecutions settings cfg tF tJ) (List.filter (kept oldestVer minVer) jobs).
Proof.
  induction 1 as [i str | i j jobs str t e He | i j jobs str t str1 t' r He Hl IH];
    intros str' Hr.
  - injection Hr as <-. exists []. split; [ constructor | ].
    split; [ symmetry; apply string_app_nil_r | reflexivity ].
  - discriminate Hr.
  - destruct (IH str' Hr) as (blocks & Hb & Hs & Hx). clear IH.
    cbn [List.filter].
    inversion He; subst;
      match goal with
      | H : skipVersion _ _ _ = ?b |- _ =>
          assert (Hk : kept oldestVer minVer j = negb b) by (unfold kept; rewrite H; reflexivity)
      end;
      rewrite Hk; cbn [negb].
    + exists blocks. split; [ exact Hb | ]. split; [ reflexivity | ].
      rewrite effects_app. exact Hx.
    + match goal with
      | Hf : template_run tF _ = (_, None), Hj : template_run tJ _ = (?out, None) |- _ =>
          rename Hf into Hname; rename Hj into Hjob; exists (out :: blocks)
      end.
      split; [ | split ].
      * constructor; [ | exact Hb ]. unfold entryBlock. rewrite Hname, Hjob. reflexivity.
      * cbn [joinBlocks]. rewrite !string_app_assoc. reflexivity.
      * rewrite effects_app, Hx. cbn [flat_map]. unfold entryExecutions.
        rewrite Hname. reflexivity.
Qed.

(** What follows an entry that fails is never reached. *)
Lemma loop_run_app_failed settings cfg oldestVer minVer tF tJ i jobs after str t e :
  loop_run settings cfg oldestVer minVer tF tJ i jobs str t (inl e) ->
  loop_run settings cfg oldestVer minVer tF tJ i (jobs ++ after) str t (inl e).
Proof.
  intros H. remember (inl e) as r eqn:Hr.
  induction H as [i str | i j jobs str t e' He | i j jobs str t str1 t' r He Hl IH].
  - discriminate Hr.
  - injection Hr as ->. apply loop_stop. exact He.
  - cbn [app]. eapply loop_next; [ exact He | apply IH; exact Hr ].
Qed.

(** A failed execution is the last event of the loop. *)
Lemma entry_run_failed_last settings cfg oldestVer minVer tF tJ i j str t r n v out e :
  Name tF <> Name tJ ->
  entry_run settings cfg oldestVer minVer tF tJ i j str t r ->
  In (TemplateExecute n v) t ->
  (n = Name tF /\ template_run tF v = (out, Some e))
  \/ (n = Name tJ /\ template_run tJ v = (out, Some e)) ->
  exists before, t = (before ++ [TemplateExecute n v])%list.
Proof.
  intros Hne H Hin Hfail.
  destruct H as [Hs | out' e' Hs Hf | rendered out' e' Hs Hf Hj | rendered out' Hs Hf Hj];
    cbn in Hin;
    repeat match goal with
           | H : _ \/ _ |- _ => destruct H
           | H : _ /\ _ |- _ => destruct H
           | H : False |- _ => destruct H
           | H : Log _ _ = TemplateExecute _ _ |- _ => discriminate H
           | H : TemplateExecute _ _ = TemplateExecute _ _ |- _ =>
               injection H as <- <-
           end;
    try congruence.
  - eexists [_]. reflexivity.
  - eexists [_; _]. reflexivity.
Qed.

Lemma loop_run_failed_last settings cfg oldestVer minVer tF tJ i jobs str t r n v out e :
  Name tF <> Name tJ ->
  loop_run settings cfg oldestVer minVer tF tJ i jobs str t r ->
  In (TemplateExecute n v) t ->
  (n = Name tF /\ template_run tF v = (out, Some e))
  \/ (n = Name tJ /\ template_run tJ v = (out, Some e)) ->
  exists before, t = (before ++ [TemplateExecute n v])%list.
Proof.
  intros Hne H. induction H as [| i j jobs str t e' He | i j jobs str t str' t' r He Hl IH];
    intros Hin Hfail.
  - destruct Hin.
  - eapply entry_run_failed_last; eassumption.
  - apply in_app_or in Hin. destruct Hin as [Hin|Hin].
    + pose proof (entry_run_failed_execution _ _ _ _ _ _ _ _ _ _ _ _ _ _ _ Hne He Hin Hfail).
      discriminate.
    + destruct (IH Hin Hfail) as [before ->]. exists (t ++ before)%list.
      rewrite app_assoc. reflexivity.
Qed.

(** What a run does, and what it returns, depend on the file system through
    the template file and the lock of the output path only; what it changes
    is the file at the output path, when it writes. *)
Lemma run_footprint settings cfg oldestVer minVer fs :
  exists t r w,
    forall fs', sameInputs settings cfg fs fs' ->
      processTestInfra settings cfg oldestVer minVer fs' =
      Outcome t (commit fs' (outputPath settings cfg) w) r.
Proof.
  pose proof (processTestInfra_run settings cfg oldestVer minVer fs) as Hrun.
  remember (processTestInfra settings cfg oldestVer minVer fs) as o eqn:Ho. clear Ho.
  destruct Hrun as [ He | Hne Hread | tBytes e Hne Hread HpJ
                   | tBytes treeJob e Hne Hread HpJ HpN
                   | tBytes treeJob treeName t e (Hne & Hread & HpJ & HpN) Hloop
                   | tBytes treeJob treeName t str e (Hne & Hread & HpJ & HpN) Hloop Hy
                   | tBytes treeJob treeName t str (Hne & Hread & HpJ & HpN) Hloop Hy Hl
                   | tBytes treeJob treeName t str (Hne & Hread & HpJ & HpN) Hloop Hy Hl ].
  - eexists _, _, None. intros fs' _.
    exact (pipeline_run_sound _ _ _ _ _ _ (run_no_template settings cfg oldestVer minVer fs' He)).
  - eexists _, _, None. intros fs' [Hf _]. rewrite Hf in Hread.
    exact (pipeline_run_sound _ _ _ _ _ _
             (run_read_fails settings cfg oldestVer minVer fs' Hne Hread)).
  - eexists _, _, None. intros fs' [Hf _]. rewrite Hf in Hread.
    exact (pipeline_run_sound _ _ _ _ _ _
             (run_job_parse_fails settings cfg oldestVer minVer fs' _ _ Hne Hread HpJ)).
  - eexists _, _, None. intros fs' [Hf _]. rewrite Hf in Hread.
    exact (pipeline_run_sound _ _ _ _ _ _
             (run_name_parse_fails settings cfg oldestVer minVer fs' _ _ _ Hne Hread HpJ HpN)).
  - eexists _, _, None. intros fs' [Hf _]. rewrite Hf in Hread.
    exact (pipeline_run_sound _ _ _ _ _ _
             (run_loop_fails settings cfg oldestVer minVer fs' _ _ _ _ _
                             (conj Hne (conj Hread (conj HpJ HpN))) Hloop)).
  - eexists _, _, None. intros fs' [Hf _]. rewrite Hf in Hread.
    exact (pipeline_run_sound _ _ _ _ _ _
             (run_invalid settings cfg oldestVer minVer fs' _ _ _ _ _ _
                          (conj Hne (conj Hread (conj HpJ HpN))) Hloop Hy)).
  - exists (loading settings cfg tBytes ++ t ++ committing settings cfg str)%list,
           (inl (faultError (os_fault (outputPath settings cfg) str))),
           (match os_fault (outputPath settings cfg) str with
            | OpenFails _ => None
            | WriteFails written _ => Some (substring 0 written str)
            end).
    intros fs' [Hf Hk]. rewrite Hf in Hread.
    rewrite (pipeline_run_sound _ _ _ _ _ _
               (run_write_fails settings cfg oldestVer minVer fs' _ _ _ _ _
                                (conj Hne (conj Hread (conj HpJ HpN))) Hloop Hy
                                (proj1 Hk Hl))).
    unfold failedWrite. destruct (os_fault (outputPath settings cfg) str); reflexivity.
  - eexists _, _, (Some str). intros fs' [Hf Hk]. rewrite Hf in Hread.
    assert (Hl' : outputPath settings cfg ∉ locked fs').
    { intros Hin. apply Hl. apply Hk. exact Hin. }
    exact (pipeline_run_sound _ _ _ _ _ _
             (run_written settings cfg oldestVer minVer fs' _ _ _ _ _
                          (conj Hne (conj Hread (conj HpJ HpN))) Hloop Hy Hl')).
Qed.

Lemma flat_map_executions_length settings cfg tF tJ jobs :
  length (flat_map (entryExecutions settings cfg tF tJ) jobs) = (2 * length jobs)%nat.
Proof.
  induction jobs as [|j jobs IH]; [ reflexivity | ].
  cbn [flat_map]. rewrite List.length_app, IH. cbn [length entryExecutions]. lia.
Qed.

(** The loop neither reads nor writes nor validates. *)
Lemma loop_no_io settings cfg oldestVer minVer tF tJ i jobs str t r :
  loop_run settings cfg oldestVer minVer tF tJ i jobs str t r ->
  List.filter is_read t = [] /\ List.filter is_write t = []
  /\ Forall (fun ev => is_unmarshal ev = false) t.
Proof.
  intros H. pose proof (loop_run_events _ _ _ _ _ _ _ _ _ _ _ H) as Hall. clear H.
  induction Hall as [| ev t Hev _ (IHr & IHw & IHu)]; [ repeat split; constructor | ].
  cbn [List.filter]. destruct ev; cbn in Hev; try discriminate Hev; cbn;
    (split; [ exact IHr | split; [ exact IHw | constructor; [ reflexivity | exact IHu ] ] ]).
Qed.

(** X1.  After a run that returns nil for a group with a template, the
    file at the output path holds the header and the root key followed by
    the blocks of the entries the filter keeps, in the order of the group,
    each after a newline; that text is what was validated and written. *)
Theorem X1_generated_text settings cfg oldestVer minVer fs :
  jobGroup.TestInfraJobSpec_Template cfg <> "" ->
  let o := processTestInfra settings cfg oldestVer minVer fs in
  result o = inr tt ->
  exists tBytes treeJob treeName blocks,
    loaded settings cfg fs tBytes treeJob treeName
    /\ Forall2 (fun j b => entryBlock settings cfg (fileNameTemplate treeName)
                                      (jobTemplate treeJob) j = Some b)
               (List.filter (kept oldestVer minVer) (jobGroup.Jobs cfg)) blocks
    /\ files (final o) !! outputPath settings cfg =
       Some (initialText ++ joinBlocks blocks)%string
    /\ In (WriteFile (outputPath settings cfg) (initialText ++ joinBlocks blocks)%string 420)
          (trace o)
    /\ yaml_parse (initialText ++ joinBlocks blocks)%string = None.
Proof.
  intros Hne o Hok. subst o.
  pose proof (processTestInfra_run settings cfg oldestVer minVer fs) as Hrun.
  remember (processTestInfra settings cfg oldestVer minVer fs) as o eqn:Ho. clear Ho.
  destruct Hrun as [ He | | | | | |
                   | tBytes treeJob treeName t str Hl Hloop Hy Hlock ];
    cbn [result] in Hok; try discriminate Hok; [ congruence | ].
  destruct (loop_run_completed _ _ _ _ _ _ _ _ _ _ _ Hloop str eq_refl)
    as (blocks & Hb & -> & _).
  exists tBytes, treeJob, treeName, blocks.
  split; [ exact Hl | ]. split; [ exact Hb | ].
  split; [ cbn [final files]; apply lookup_insert_eq | ].
  split; [ | exact Hy ].
  cbn [trace]. apply in_or_app. right. apply in_or_app. right.
  unfold committing. right. right. left. reflexivity.
Qed.

(** X2.  In a run whose loop completes (the text reaches the validator),
    the template executions are, for each entry the filter keeps and in the
    order of the group, the file-name template on the initial variables and
    then the job template on the resolved ones: two executions for each
    kept entry and none for the others. *)
Theorem X2_executions_in_order settings cfg oldestVer minVer fs str :
  let o := processTestInfra settings cfg oldestVer minVer fs in
  In (Unmarshal str) (trace o) ->
  exists tBytes treeJob treeName,
    loaded settings cfg fs tBytes treeJob treeName
    /\ List.filter is_execute (trace o) =
       flat_map (entryExecutions settings cfg (fileNameTemplate treeName) (jobTemplate treeJob))
                (List.filter (kept oldestVer minVer) (jobGroup.Jobs cfg))
    /\ length (List.filter is_execute (trace o)) =
       (2 * length (List.filter (kept oldestVer minVer) (jobGroup.Jobs cfg)))%nat.
Proof.
  intros o Hin. subst o.
  pose proof (processTestInfra_run settings cfg oldestVer minVer fs) as Hrun.
  remember (processTestInfra settings cfg oldestVer minVer fs) as o eqn:Ho. clear Ho.
  destruct Hrun as [ | | | | tBytes treeJob treeName t e' Hl Hloop
                   | tBytes treeJob treeName t str' e' Hl Hloop Hy'
                   | tBytes treeJob treeName t str' Hl Hloop Hy' Hlock
                   | tBytes treeJob treeName t str' Hl Hloop Hy' Hlock ];
    cbn [trace] in Hin; split_in Hin; try no_loop_event Hloop Hin.
  all: destruct (loop_run_completed _ _ _ _ _ _ _ _ _ _ _ Hloop str' eq_refl)
         as (blocks & _ & _ & Hx).
  all: exists tBytes, treeJob, treeName; split; [ exact Hl | ].
  all: cbn [trace]; rewrite !List.filter_app.
  all: rewrite (loop_effects_executions _ _ _ _ _ _ _ _ _ _ _ Hloop), Hx.
  all: cbn [loading committing List.filter is_execute app]; rewrite app_nil_r.
  all: split; [ reflexivity | apply flat_map_executions_length ].
Qed.

(** X3.  An execution that fails is the last thing a run does: no entry is
    logged or executed after it and the text never reaches the validator. *)
Theorem X3_failed_execution_ends_run
    settings cfg oldestVer minVer fs tBytes treeJob treeName n v out e :
  let o := processTestInfra settings cfg oldestVer minVer fs in
  loaded settings cfg fs tBytes treeJob treeName ->
  In (TemplateExecute n v) (trace o) ->
  (n = "file-name" /\ template_run (fileNameTemplate treeName) v = (out, Some e))
  \/ (n = "job-template" /\ template_run (jobTemplate treeJob) v = (out, Some e)) ->
  (exists before, trace o = (before ++ [TemplateExecute n v])%list)
  /\ Forall (fun ev => is_unmarshal ev = false) (trace o).
Proof.
  intros o Hl Hin Hfail. subst o.
  assert (Hnames : Name (fileNameTemplate treeName) <> Name (jobTemplate treeJob))
    by (cbn; discriminate).
  pose proof (processTestInfra_run settings cfg oldestVer minVer fs) as Hrun.
  remember (processTestInfra settings cfg oldestVer minVer fs) as o eqn:Ho. clear Ho.
  destruct Hrun as [ | | | | tBytes' treeJob' treeName' t e' Hl' Hloop
                   | tBytes' treeJob' treeName' t str' e' Hl' Hloop Hy'
                   | tBytes' treeJob' treeName' t str' Hl' Hloop Hy' Hlock
                   | tBytes' treeJob' treeName' t str' Hl' Hloop Hy' Hlock ];
    cbn [trace] in Hin; split_in Hin.
  all: destruct (loaded_unique _ _ _ _ _ _ _ _ _ Hl Hl') as (<- & <- & <-).
  all: pose proof (loop_run_failed_execution _ _ _ _ _ _ _ _ _ _ _ n v out e
                     Hnames Hloop Hin Hfail) as Hr.
  all: try discriminate Hr.
  destruct (loop_run_failed_last _ _ _ _ _ _ _ _ _ _ _ n v out e Hnames Hloop Hin Hfail)
    as [before ->].
  cbn [trace]. split.
  - exists (loading settings cfg tBytes ++ before)%list. rewrite app_assoc. reflexivity.
  - apply Forall_app. split; [ unfold loading; repeat constructor | ].
    apply (loop_no_io _ _ _ _ _ _ _ _ _ _ _ Hloop).
Qed.

(** X4.  The loop stops at the first entry that fails: the entries after
    it change nothing, in the result, the trace or the file system.  So a
    group whose loop fails runs as the group cut after the failing entry. *)
Theorem X4_entries_after_failure_unreached
    settings cfg oldestVer minVer templateFileName templateJob i before after str fs e :
  result (processJobs settings cfg oldestVer minVer templateFileName templateJob
                      i before str fs) = inl e ->
  processJobs settings cfg oldestVer minVer templateFileName templateJob
              i (before ++ after) str fs =
  processJobs settings cfg oldestVer minVer templateFileName templateJob i before str fs.
Proof.
  intros Hfail.
  destruct (processJobs_run settings cfg oldestVer minVer templateFileName templateJob
              before i str) as (t & r & Hloop & Hrun).
  rewrite Hrun in Hfail. cbn [result] in Hfail. subst r.
  rewrite Hrun.
  apply (loop_run_sound _ _ _ _ _ _ _ _ _ _ _ (loop_run_app_failed _ _ _ _ _ _ _ _ after _ _ _ Hloop)).
Qed.

(** A write that fails changes nothing but, at most, the file it is at. *)
Lemma failedWrite_other fs name data p :
  p <> name -> files (failedWrite fs name data) !! p = files fs !! p.
Proof.
  intros Hp. unfold failedWrite. destruct (os_fault name data); [ reflexivity | ].
  cbn [files]. apply lookup_insert_ne. congruence.
Qed.

Lemma failedWrite_locked fs name data :
  locked (failedWrite fs name data) = locked fs.
Proof. unfold failedWrite. destruct (os_fault name data); reflexivity. Qed.

(** X5.  A run reads at most one file, the template file of the group
    (the template reference itself when it is absolute), and writes at most
    one, at the output path with mode 0644; every other file is left as it
    was, and so is what can be written. *)
Theorem X5_reads_and_writes settings cfg oldestVer minVer fs :
  let o := processTestInfra settings cfg oldestVer minVer fs in
  (forall p, In (ReadFile p) (trace o) -> p = templatePath settings cfg)
  /\ (length (List.filter is_read (trace o)) <= 1)%nat
  /\ (forall p data perm,
        In (WriteFile p data perm) (trace o) -> p = outputPath settings cfg /\ perm = 420)
  /\ (length (List.filter is_write (trace o)) <= 1)%nat
  /\ (forall p, p <> outputPath settings cfg -> files (final o) !! p = files fs !! p)
  /\ locked (final o) = locked fs
  /\ (path.IsAbs (jobGroup.TestInfraJobSpec_Template cfg) = true ->
      templatePath settings cfg = jobGroup.TestInfraJobSpec_Template cfg)
  /\ (path.IsAbs (jobGroup.TestInfraJobSpec_Template cfg) = false ->
      templatePath settings cfg =
      filepath_Join (filepath_Dir (Settings.PathConfig settings))
                    (jobGroup.TestInfraJobSpec_Template cfg)).
Proof.
  intros o. subst o.
  pose proof (processTestInfra_run settings cfg oldestVer minVer fs) as Hrun.
  remember (processTestInfra settings cfg oldestVer minVer fs) as o eqn:Ho. clear Ho.
  assert (Habs : (path.IsAbs (jobGroup.TestInfraJobSpec_Template cfg) = true ->
                  templatePath settings cfg = jobGroup.TestInfraJobSpec_Template cfg)
                 /\ (path.IsAbs (jobGroup.TestInfraJobSpec_Template cfg) = false ->
                     templatePath settings cfg =
                     filepath_Join (filepath_Dir (Settings.PathConfig settings))
                                   (jobGroup.TestInfraJobSpec_Template cfg))).
  { split; intros H; unfold templatePath; rewrite H; reflexivity. }
  destruct Hrun as [ | | | | tBytes treeJob treeName t e' Hl Hloop
                   | tBytes treeJob treeName t str' e' Hl Hloop Hy'
                   | tBytes treeJob treeName t str' Hl Hloop Hy' Hlock
                   | tBytes treeJob treeName t str' Hl Hloop Hy' Hlock ];
    try (destruct (loop_no_io _ _ _ _ _ _ _ _ _ _ _ Hloop) as (Hnr & Hnw & _));
    cbn [trace final files locked];
    rewrite ?List.filter_app, ?List.length_app, ?Hnr, ?Hnw;
    (split; [ intros p Hin; split_in Hin; try no_loop_event Hloop Hin;
              injection Hin as <-; reflexivity | ]);
    (split; [ cbn; lia | ]);
    (split; [ intros p data perm Hin; split_in Hin; try no_loop_event Hloop Hin;
              injection Hin as <- _ <-; split; reflexivity | ]);
    (split; [ cbn; lia | ]);
    (split; [ intros p Hp; try reflexivity;
              first [ apply lookup_insert_ne; congruence | apply failedWrite_other; exact Hp ]
            | ]);
    (split; [ first [ reflexivity | apply failedWrite_locked ] | exact Habs ]).
Qed.

Lemma sameInputs_refl settings cfg fs : sameInputs settings cfg fs fs.
Proof. split; [ reflexivity | apply iff_refl ]. Qed.

(** A write elsewhere than at the template file leaves the inputs of the
    group as they were. *)
Lemma sameInputs_commit settings cfg fs p w :
  p <> templatePath settings cfg ->
  sameInputs settings cfg fs (commit fs p w).
Proof.
  intros Hp. destruct w as [data|]; [ | apply sameInputs_refl ].
  split; [ | apply iff_refl ].
  cbn [commit writeFile files]. symmetry. apply lookup_insert_ne. exact Hp.
Qed.

Lemma commit_twice fs p w : commit (commit fs p w) p w = commit fs p w.
Proof.
  destruct w as [data|]; [ | reflexivity ].
  unfold commit, writeFile. cbn [files locked]. rewrite insert_insert_eq. reflexivity.
Qed.

Lemma commit_commute fs p q w w' :
  p <> q -> commit (commit fs p w) q w' = commit (commit fs q w') p w.
Proof.
  intros Hne. destruct w as [d|], w' as [d'|]; try reflexivity.
  unfold commit, writeFile. cbn [files locked]. f_equal.
  apply insert_insert_ne. congruence.
Qed.

(** X6.  Generating again is idempotent: when the output path is not the
    template file, a second run on the file system the first run left does
    the same, returns the same and leaves that file system as it is. *)
Theorem X6_regeneration_idempotent settings cfg oldestVer minVer fs :
  outputPath settings cfg <> templatePath settings cfg ->
  let o1 := processTestInfra settings cfg oldestVer minVer fs in
  let o2 := processTestInfra settings cfg oldestVer minVer (final o1) in
  result o2 = result o1 /\ trace o2 = trace o1 /\ final o2 = final o1.
Proof.
  intros Hne o1 o2. subst o1 o2.
  destruct (run_footprint settings cfg oldestVer minVer fs) as (t & r & w & Hrun).
  rewrite (Hrun fs (sameInputs_refl _ _ _)). cbn [final].
  rewrite (Hrun _ (sameInputs_commit _ _ _ _ w Hne)). cbn [result trace final].
  rewrite commit_twice. repeat split; reflexivity.
Qed.

(** X7.  The write is the last step and its outcome is the outcome of the
    run: a run that reaches [os.WriteFile] returns what the write returns,
    unwrapped, and leaves the file system as the write leaves it; nothing
    before the write has touched the files and nothing happens after it.
    When the write does not fail, the run returns nil and the file holds
    the text.  When it fails at the open, nothing has changed; when it
    fails after the open, the file holds the bytes written and what it
    held before is lost. *)
Theorem X7_write_decides settings cfg oldestVer minVer fs p data perm :
  let o := processTestInfra settings cfg oldestVer minVer fs in
  In (WriteFile p data perm) (trace o) ->
  result o = result (os_WriteFile p data perm fs)
  /\ final o = final (os_WriteFile p data perm fs)
  /\ last (trace o) = Some (WriteFile p data perm)
  /\ (p ∉ locked fs -> result o = inr tt /\ final o = writeFile fs p data)
  /\ (p ∈ locked fs ->
      result o = inl (faultError (os_fault p data))
      /\ match os_fault p data with
         | OpenFails _ => final o = fs
         | WriteFails written _ => final o = writeFile fs p (substring 0 written data)
         end).
Proof.
  intros o Hin. subst o.
  pose proof (processTestInfra_run settings cfg oldestVer minVer fs) as Hrun.
  remember (processTestInfra settings cfg oldestVer minVer fs) as o eqn:Ho. clear Ho.
  destruct Hrun as [ | | | | tBytes treeJob treeName t e' Hl Hloop
                   | tBytes treeJob treeName t str' e' Hl Hloop Hy'
                   | tBytes treeJob treeName t str' Hl Hloop Hy' Hlock
                   | tBytes treeJob treeName t str' Hl Hloop Hy' Hlock ];
    cbn [trace] in Hin; split_in Hin; try no_loop_event Hloop Hin;
    injection Hin as <- <- <-; cbn [result final trace].
  - rewrite (os_WriteFile_locked _ _ _ _ Hlock). cbn [result final].
    split; [ reflexivity | ]. split; [ reflexivity | ].
    split.
    { change (committing settings cfg str')
        with ([Unmarshal str'; Log "writing %q" [LStr (outputPath settings cfg)]]
              ++ [WriteFile (outputPath settings cfg) str' 420])%list.
      rewrite !app_assoc. apply last_snoc. }
    split; [ intros Hfree; contradiction | ].
    intros _. split; [ reflexivity | ].
    unfold failedWrite. destruct (os_fault (outputPath settings cfg) str'); reflexivity.
  - rewrite (os_WriteFile_ok _ _ _ _ Hlock). cbn [result final].
    split; [ reflexivity | ]. split; [ reflexivity | ].
    split.
    { change (committing settings cfg str')
        with ([Unmarshal str'; Log "writing %q" [LStr (outputPath settings cfg)]]
              ++ [WriteFile (outputPath settings cfg) str' 420])%list.
      rewrite !app_assoc. apply last_snoc. }
    split; [ intros _; split; reflexivity | ].
    intros Hin. contradiction.
Qed.

(** X8.  Every template execution of a run is on variables copied from an
    entry of the group, from the group and from the settings: the five
    versions of the entry, the test-infra target file of the group and the
    image of the settings.  The file-name template is executed before the
    workflow file, the interval and the alert annotations are set: it sees
    them empty. *)
Theorem X8_variables_copied settings cfg oldestVer minVer fs n v :
  In (TemplateExecute n v) (trace (processTestInfra settings cfg oldestVer minVer fs)) ->
  exists j,
    In j (jobGroup.Jobs cfg)
    /\ templateVars.KubernetesVersion v = job.KubernetesVersion j
    /\ templateVars.KubeadmVersion v = job.KubeadmVersion j
    /\ templateVars.KubeletVersion v = job.KubeletVersion j
    /\ templateVars.InitVersion v = job.InitVersion j
    /\ templateVars.UpgradeVersion v = job.UpgradeVersion j
    /\ templateVars.TargetFile v = jobGroup.TestInfraJobSpec_TargetFile cfg
    /\ templateVars.TestInfraImage v = Settings.ImageTestInfra settings
    /\ (n = "file-name" \/ n = "job-template")
    /\ (n = "file-name" ->
        templateVars.WorkflowFile v = "" /\ templateVars.JobInterval v = ""
        /\ templateVars.AlertAnnotations v = "").
Proof.
  intros Hin.
  destruct (pipeline_executions _ _ _ _ _ _ _ Hin)
    as (tBytes & treeJob & treeName & j & _ & Hj & _ & Hex).
  exists j. split; [ exact Hj | ].
  destruct Hex as [| rendered Hrun].
  - cbn. do 7 (split; [ reflexivity | ]).
    split; [ left; reflexivity | ]. intros _. repeat split.
  - unfold resolveVars. destruct (periodAndAlerts j) as [[interval failures] staleResults].
    cbn. do 7 (split; [ reflexivity | ]).
    split; [ right; reflexivity | ]. intros Hn. discriminate Hn.
Qed.

Lemma app_last_byte (a b : string) (c d : ascii) :
  (a ++ String c "")%string = (b ++ String d "")%string -> c = d.
Proof.
  revert b. induction a as [|x a IH]; intros [|y b] H;
    rewrite ?append_cons, ?append_nil in H.
  - injection H as ->. reflexivity.
  - injection H as _ H. destruct b; rewrite ?append_cons, ?append_nil in H; discriminate H.
  - injection H as _ H. destruct a; rewrite ?append_cons, ?append_nil in H; discriminate H.
  - injection H as _ H. apply (IH b H).
Qed.

(** X9.  The workflow file keeps the rendered file name: without its
    quotes and with the suffix put back it is the rendered name, when that
    ended in the suffix, and the rendered name itself otherwise.  It is two
    bytes longer than the trimmed name and, ending in a quote, never ends
    in the suffix itself. *)
Theorem X9_workflow_file_round_trip (rendered : string) :
  let w := workflowFile rendered in
  strings.HasSuffix w ".yaml" = false
  /\ String.length w = (String.length (strings.TrimSuffix rendered ".yaml") + 2)%nat
  /\ (strings.HasSuffix rendered ".yaml" = true -> (unquote w ++ ".yaml")%string = rendered)
  /\ (strings.HasSuffix rendered ".yaml" = false -> unquote w = rendered).
Proof.
  intros w. subst w. rewrite workflowFile_unquote.
  split; [ | split; [ | split ] ].
  - destruct (strings.HasSuffix (workflowFile rendered) ".yaml") eqn:Hs; [ | reflexivity ].
    destruct (HasSuffix_inv _ _ Hs) as [p Hp]. unfold workflowFile in Hp.
    rewrite <- !string_app_assoc in Hp.
    change (p ++ ".yaml")%string with (p ++ (".yam" ++ String "l" ""))%string in Hp.
    rewrite <- string_app_assoc in Hp.
    apply app_last_byte in Hp. discriminate Hp.
  - unfold workflowFile. rewrite !length_app. cbn [String.length strings.dquote]. lia.
  - intros Hs. destruct (HasSuffix_inv _ _ Hs) as [stem ->].
    rewrite TrimSuffix_app. reflexivity.
  - apply TrimSuffix_not_suffix.
Qed.

(** X10.  Two groups whose output paths differ, neither being the template
    file of the other, can be generated in either order: each run does and
    returns what it does alone, and both orders leave the same files. *)
Theorem X10_groups_commute
    settings cfgA cfgB oldestA minA oldestB minB fs :
  outputPath settings cfgA <> outputPath settings cfgB ->
  outputPath settings cfgA <> templatePath settings cfgB ->
  outputPath settings cfgB <> templatePath settings cfgA ->
  let a := processTestInfra settings cfgA oldestA minA fs in
  let b := processTestInfra settings cfgB oldestB minB fs in
  let ab := processTestInfra settings cfgB oldestB minB (final a) in
  let ba := processTestInfra settings cfgA oldestA minA (final b) in
  result ab = result b /\ trace ab = trace b
  /\ result ba = result a /\ trace ba = trace a
  /\ final ab = final ba.
Proof.
  intros Hout HAB HBA a b ab ba. subst a b ab ba.
  destruct (run_footprint settings cfgA oldestA minA fs) as (tA & rA & wA & HA).
  destruct (run_footprint settings cfgB oldestB minB fs) as (tB & rB & wB & HB).
  rewrite (HA fs (sameInputs_refl _ _ _)), (HB fs (sameInputs_refl _ _ _)). cbn [final].
  rewrite (HB _ (sameInputs_commit settings cfgB fs _ wA HAB)).
  rewrite (HA _ (sameInputs_commit settings cfgA fs _ wB HBA)).
  cbn [result trace final].
  split; [ reflexivity | ]. split; [ reflexivity | ].
  split; [ reflexivity | ]. split; [ reflexivity | ].
  apply commit_commute. exact Hout.
Qed.


End Properties.

(** * The claims on the sample instance *)

(** An event of a computed trace. *)
Ltac in_trace := vm_compute; repeat (first [ left; reflexivity | right ]).

Example TrimSuffix_once :
  strings.TrimSuffix "kubeadm-kinder-latest.yaml" ".yaml" = "kubeadm-kinder-latest".
Proof. reflexivity. Qed.

Example TrimSuffix_one_suffix_only :
  strings.TrimSuffix "regular.yaml.yaml" ".yaml" = "regular.yaml".
Proof. reflexivity. Qed.

Example TrimSuffix_no_suffix :
  strings.TrimSuffix "regular.yml" ".yaml" = "regular.yml".
Proof. reflexivity. Qed.

Example Sprintf_verbs :
  fmt.Sprintf "a=%d, b=%s." [fmt.Int (-16); fmt.Str "x"] = "a=-16, b=x.".
Proof. reflexivity. Qed.

Example IsAbs_paths :
  path.IsAbs "/ci/jobs" = true /\ path.IsAbs "templates/job.yaml" = false
  /\ path.IsAbs "" = false.
Proof. repeat split. Qed.

Example Sample_parse_job :
  Sample.parse (jobFuncMap (Pkg := Sample.pkg)) Sample.jobText = inr Sample.jobTree.
Proof. reflexivity. Qed.

Example Sample_parse_name :
  Sample.parse [] "regular-{{ .KubernetesVersion }}.yaml" = inr Sample.nameTree.
Proof. reflexivity. Qed.

Example Sample_skip :
  Sample.skip 28 29 "latest" = false /\ Sample.skip 28 29 "1.28" = true
  /\ Sample.skip 28 29 "1.31" = false.
Proof. repeat split. Qed.

(** One entry on the moving release and one pinned at 1.28, below the
    minimum version: the file holds the header, the root key and one job
    block. *)
Example Sample_one_block :
  let o := Sample.run (Sample.group [Sample.latestJob; Sample.oldJob])
                      (Sample.disk Sample.jobText) in
  result o = inr tt
  /\ files (final o) !! "/test-infra/config/jobs/kubeadm-kinder.yaml" =
     Some (initialText (Pkg := Sample.pkg) ++ strings.newline
           ++ "- name: kinder-latest" ++ strings.newline
           ++ "  interval: 2h" ++ strings.newline
           ++ "  annotations:" ++ strings.newline
           ++ alertBlock 4 8 16 ++ strings.newline)%string.
Proof. split; reflexivity. Qed.

Lemma C1_witness :
  let cfg := Sample.group Sample.threeJobs in
  let vars := resolveVars (Pkg := Sample.pkg) Sample.settings cfg Sample.pinnedJob
                          "regular-1.31.yaml" in
  In (TemplateExecute "job-template" vars) (trace (Sample.run cfg (Sample.disk Sample.jobText)))
  /\ exists j rendered,
       In j (jobGroup.Jobs cfg)
       /\ vars = resolveVars (Pkg := Sample.pkg) Sample.settings cfg j rendered
       /\ (job.KubernetesVersion j = "latest" \/ job.KubeadmVersion j = "latest" ->
           periodAndAlerts (Pkg := Sample.pkg) j = ("2h", 8, 16)
           /\ templateVars.JobInterval vars = "2h"
           /\ templateVars.AlertAnnotations vars = alertBlock 4 8 16)
       /\ (job.KubernetesVersion j <> "latest" /\ job.KubeadmVersion j <> "latest" ->
           periodAndAlerts (Pkg := Sample.pkg) j = ("12h", 4, 48)
           /\ templateVars.JobInterval vars = "12h"
           /\ templateVars.AlertAnnotations vars = alertBlock 4 4 48).
Proof.
  intros cfg vars.
  assert (H : In (TemplateExecute "job-template" vars)
                 (trace (Sample.run cfg (Sample.disk Sample.jobText)))).
  { in_trace. }
  split; [ exact H | ].
  exact (C1_interval_and_alert_policy (Lib := Sample.lib) (Pkg := Sample.pkg)
           Sample.settings cfg 28%nat 29%nat (Sample.disk Sample.jobText) vars H).
Defined.

Lemma C3_witness :
  let cfg := Sample.group Sample.threeJobs in
  let vars := resolveVars (Pkg := Sample.pkg) Sample.settings cfg Sample.latestJob
                          "regular-latest.yaml" in
  In (TemplateExecute "job-template" vars) (trace (Sample.run cfg (Sample.disk Sample.jobText)))
  /\ templateVars.WorkflowFile vars = (strings.dquote ++ "regular-latest" ++ strings.dquote)%string
  /\ exists (treeName : list Sample.node) j rendered,
       In j (jobGroup.Jobs cfg)
       /\ Sample.exec [] treeName (initVars Sample.settings cfg j) = (rendered, None)
       /\ vars = resolveVars (Pkg := Sample.pkg) Sample.settings cfg j rendered
       /\ unquote (templateVars.WorkflowFile vars) = strings.TrimSuffix rendered ".yaml".
Proof.
  intros cfg vars.
  assert (H : In (TemplateExecute "job-template" vars)
                 (trace (Sample.run cfg (Sample.disk Sample.jobText)))).
  { in_trace. }
  split; [ exact H | ]. split; [ reflexivity | ].
  destruct (C3_workflow_file (Lib := Sample.lib) (Pkg := Sample.pkg)
              Sample.settings cfg 28%nat 29%nat (Sample.disk Sample.jobText) vars H)
    as (treeName & j & rendered & _ & Hj & Hrun & Hv & _ & Hu & _).
  exists treeName, j, rendered. split; [ exact Hj | ]. split; [ exact Hrun | ].
  split; [ exact Hv | exact Hu ].
Defined.

(** C3 as stated fails: a file-name pattern that renders to a name ending
    in [.yaml.yaml] loses one suffix only, and the quoted value still ends
    in [.yaml]. *)
Lemma C3_counterexample :
  let cfg := jobGroup.mk "regular" "templates/testinfra/regular.yaml" "out/kubeadm-kinder.yaml"
                         "regular-{{ .KubernetesVersion }}.yaml.yaml" [Sample.latestJob] in
  let rendered := "regular-latest.yaml.yaml" in
  let vars := resolveVars (Pkg := Sample.pkg) Sample.settings cfg Sample.latestJob rendered in
  template_run (Lib := Sample.lib)
    (fileNameTemplate (Lib := Sample.lib)
       [Sample.Text "regular-"; Sample.Field "KubernetesVersion"; Sample.Text ".yaml.yaml"])
    (initVars Sample.settings cfg Sample.latestJob) = (rendered, None)
  /\ In (TemplateExecute "job-template" vars)
        (trace (Sample.run cfg (Sample.disk Sample.jobText)))
  /\ strings.HasSuffix rendered ".yaml" = true
  /\ unquote (templateVars.WorkflowFile vars) = "regular-latest.yaml"
  /\ strings.HasSuffix (unquote (templateVars.WorkflowFile vars)) ".yaml" = true.
Proof.
  intros cfg rendered vars.
  split; [ reflexivity | ]. split; [ in_trace | ].
  split; [ reflexivity | ]. split; reflexivity.
Qed.

Lemma C4_witness :
  let cfg := Sample.group Sample.threeJobs in
  let vars := resolveVars (Pkg := Sample.pkg) Sample.settings cfg Sample.latestJob
                          "regular-latest.yaml" in
  In (TemplateExecute "job-template" vars) (trace (Sample.run cfg (Sample.disk Sample.jobText)))
  /\ exists j rendered interval failures staleResults,
       In j (jobGroup.Jobs cfg)
       /\ vars = resolveVars (Pkg := Sample.pkg) Sample.settings cfg j rendered
       /\ periodAndAlerts (Pkg := Sample.pkg) j = (interval, failures, staleResults)
       /\ templateVars.AlertAnnotations vars = alertBlock 4 failures staleResults
       /\ strings.Lines (templateVars.AlertAnnotations vars) =
            [ (strings.Repeat_space 4
                 ++ annotation "testgrid-num-failures-to-alert" failures)%string;
              (strings.Repeat_space 4
                 ++ annotation "testgrid-alert-stale-results-hours" staleResults)%string ].
Proof.
  intros cfg vars.
  assert (H : In (TemplateExecute "job-template" vars)
                 (trace (Sample.run cfg (Sample.disk Sample.jobText)))).
  { in_trace. }
  split; [ exact H | ].
  exact (C4_alert_annotations_block (Lib := Sample.lib) (Pkg := Sample.pkg)
           Sample.settings cfg 28%nat 29%nat (Sample.disk Sample.jobText) vars H).
Defined.

(** C4 as stated fails: the block of an entry is not the block indented by
    6 spaces; its lines start with 4 spaces and the key. *)
Lemma C4_counterexample :
  let cfg := Sample.group [Sample.latestJob] in
  let vars := resolveVars (Pkg := Sample.pkg) Sample.settings cfg Sample.latestJob
                          "regular-latest.yaml" in
  In (TemplateExecute "job-template" vars) (trace (Sample.run cfg (Sample.disk Sample.jobText)))
  /\ periodAndAlerts (Pkg := Sample.pkg) Sample.latestJob = ("2h", 8, 16)
  /\ templateVars.AlertAnnotations vars <> alertBlock 6 8 16
  /\ substring 0 5 (templateVars.AlertAnnotations vars) = "    t".
Proof.
  intros cfg vars.
  split; [ in_trace | ]. split; [ reflexivity | ].
  split; [ | reflexivity ].
  vm_compute. discriminate.
Qed.

Lemma C6_witness :
  let cfg := jobGroup.mk "regular" "" "out/kubeadm-kinder.yaml"
                         "regular-{{ .KubernetesVersion }}.yaml" Sample.threeJobs in
  let o := Sample.run cfg (Sample.disk Sample.jobText) in
  jobGroup.TestInfraJobSpec_Template cfg = ""
  /\ result o = inr tt
  /\ final o = Sample.disk Sample.jobText
  /\ Forall (fun e => is_log e = true) (trace o)
  /\ length (trace o) = 2%nat.
Proof.
  intros cfg o. split; [ reflexivity | ].
  exact (C6_empty_template_is_noop (Lib := Sample.lib) (Pkg := Sample.pkg)
           Sample.settings cfg 28%nat 29%nat (Sample.disk Sample.jobText) eq_refl).
Defined.

Lemma C2_witness :
  let cfg := Sample.group [Sample.latestJob] in
  (* the template file is missing *)
  (let o := Sample.run cfg (mkFS ∅ ∅) in
   result o = inl (PathError "open" "/ci/jobs/templates/testinfra/regular.yaml"
                             "no such file or directory")
   /\ quiet (mkFS ∅ ∅) o)
  (* an execution of the job template fails *)
  /\ (let fs := Sample.disk Sample.unknownFieldText in
      let o := Sample.run cfg fs in
      result o = inl (Sample.no_field "Nope") /\ quiet fs o)
  (* the text does not validate *)
  /\ (let fs := Sample.disk Sample.tabbedText in
      let o := Sample.run cfg fs in
      let str := (initialText (Pkg := Sample.pkg) ++ strings.newline ++ Sample.tabbedText)%string in
      result o = inl (validationError
                        (errorString "error converting YAML to JSON: yaml: found character that cannot start any token")
                        str)
      /\ quiet fs o)
  (* a write is of a validated text *)
  /\ (let fs := Sample.disk Sample.jobText in
      let o := Sample.run cfg fs in
      exists data,
        In (WriteFile "/test-infra/config/jobs/kubeadm-kinder.yaml" data 420) (trace o)
        /\ Sample.validate data = None).
Proof.
  intros cfg. split; [ | split; [ | split ] ].
  - apply (proj1 (C2_errors_returned_nothing_written (Lib := Sample.lib) (Pkg := Sample.pkg)
                    Sample.settings cfg 28%nat 29%nat (mkFS ∅ ∅))).
    + discriminate.
    + reflexivity.
  - intros fs o.
    pose proof (C2_errors_returned_nothing_written (Lib := Sample.lib) (Pkg := Sample.pkg)
                  Sample.settings cfg 28%nat 29%nat fs) as (_ & _ & _ & H & _).
    apply (H Sample.unknownFieldText
             [Sample.Text "- name: "; Sample.Field "Nope"; Sample.Text ""]
             Sample.nameTree "job-template"
             (resolveVars (Pkg := Sample.pkg) Sample.settings cfg Sample.latestJob
                          "regular-latest.yaml")
             "- name: ").
    + split; [ discriminate | ]. split; [ reflexivity | ]. split; reflexivity.
    + in_trace.
    + right. split; reflexivity.
  - intros fs o str.
    pose proof (C2_errors_returned_nothing_written (Lib := Sample.lib) (Pkg := Sample.pkg)
                  Sample.settings cfg 28%nat 29%nat fs) as (_ & _ & _ & _ & H & _).
    destruct (H str (errorString "error converting YAML to JSON: yaml: found character that cannot start any token"))
      as (Hr & _ & Hq).
    + in_trace.
    + reflexivity.
    + split; [ exact Hr | exact Hq ].
  - intros fs o.
    pose proof (C2_errors_returned_nothing_written (Lib := Sample.lib) (Pkg := Sample.pkg)
                  Sample.settings cfg 28%nat 29%nat fs) as (_ & _ & _ & _ & _ & H).
    eexists. split.
    + in_trace.
    + eapply H. in_trace.
Defined.

Lemma C5_witness :
  let cfg := Sample.group Sample.threeJobs in
  let fs := Sample.disk Sample.jobText in
  Sample.skip 28 29 (job.KubernetesVersion Sample.oldJob) = true
  /\ processJob (Lib := Sample.lib) (Pkg := Sample.pkg) Sample.settings cfg 28%nat 29%nat
                (fileNameTemplate (Lib := Sample.lib) Sample.nameTree)
                (jobTemplate (Lib := Sample.lib) (Pkg := Sample.pkg) Sample.jobTree)
                1 Sample.oldJob "periodics:" fs =
     Outcome [ Log "processing Job index %d, %#v" [LInt 1; LJob Sample.oldJob];
               Log "skipping Job index %d, %#v" [LInt 1; LJob Sample.oldJob] ]
             fs (inr "periodics:")
  /\ effects (trace (Sample.run cfg fs)) =
     effects (trace (Sample.run (Sample.group [Sample.latestJob; Sample.pinnedJob]) fs))
  /\ result (Sample.run cfg fs) =
     result (Sample.run (Sample.group [Sample.latestJob; Sample.pinnedJob]) fs).
Proof.
  intros cfg fs.
  pose proof (C5_skipped_entries_leave_no_trace (Lib := Sample.lib) (Pkg := Sample.pkg)
                Sample.settings cfg 28%nat 29%nat fs) as (H1 & _ & (Hr & _ & He)).
  split; [ reflexivity | ].
  split; [ apply H1; reflexivity | ].
  split; [ exact He | exact Hr ].
Defined.

Lemma C7_witness :
  let cfg := Sample.group [Sample.latestJob] in
  let fs := Sample.disk Sample.tabbedText in
  let o := Sample.run cfg fs in
  let str := (initialText (Pkg := Sample.pkg) ++ strings.newline ++ Sample.tabbedText)%string in
  let e := errorString "error converting YAML to JSON: yaml: found character that cannot start any token" in
  In (Unmarshal str) (trace o)
  /\ Sample.validate str = Some e
  /\ result o = inl (validationError e str)
  /\ strings.Contains (errors.Error (validationError e str)) str
  /\ quiet fs o.
Proof.
  intros cfg fs o str e.
  assert (Hin : In (Unmarshal str) (trace o)) by in_trace.
  assert (Hy : Sample.validate str = Some e) by reflexivity.
  destruct (C7_validation_error_carries_text (Lib := Sample.lib) (Pkg := Sample.pkg)
              Sample.settings cfg 28%nat 29%nat fs str e Hin Hy)
    as (Hr & _ & Hc & _ & _ & Hq).
  split; [ exact Hin | ]. split; [ exact Hy | ].
  split; [ exact Hr | ]. split; [ exact Hc | exact Hq ].
Defined.

Lemma C8_witness :
  let cfg := Sample.group Sample.threeJobs in
  let fs1 := Sample.disk Sample.jobText in
  let fs2 := mkFS (<["/test-infra/config/jobs/kubeadm-kinder.yaml" := "periodics: []"]>
                     (files fs1)) ∅ in
  result (Sample.run cfg fs1) = result (Sample.run cfg fs2)
  /\ trace (Sample.run cfg fs1) = trace (Sample.run cfg fs2)
  /\ files (final (Sample.run cfg fs1)) !! "/test-infra/config/jobs/kubeadm-kinder.yaml" =
     files (final (Sample.run cfg fs2)) !! "/test-infra/config/jobs/kubeadm-kinder.yaml".
Proof.
  intros cfg fs1 fs2.
  destruct (proj2 (C8_rendering_deterministic (Lib := Sample.lib) (Pkg := Sample.pkg))
              Sample.settings cfg 28%nat 29%nat fs1 fs2)
    as (Hr & Ht & Hf).
  - reflexivity.
  - apply iff_refl.
  - split; [ exact Hr | ]. split; [ exact Ht | ].
    apply Hf; [ reflexivity | discriminate ].
Defined.

Lemma C9_witness :
  let cfg := Sample.group [Sample.oldJob] in
  let fs := mkFS (<["/test-infra/config/jobs/kubeadm-kinder.yaml" := "periodics: []"]>
                    (files (Sample.disk Sample.jobText))) ∅ in
  let o := Sample.run cfg fs in
  result o = inr tt
  /\ Forall (fun e => is_execute e = false) (trace o)
  /\ files (final o) !! "/test-infra/config/jobs/kubeadm-kinder.yaml" =
     Some ("# AUTOGENERATED by https://git.k8s.io/kubeadm/kinder/ci/tools/update-workflows"
           ++ strings.newline ++ "periodics:" ++ strings.newline)%string.
Proof.
  intros cfg fs o.
  destruct (C9_header_only_file (Lib := Sample.lib) (Pkg := Sample.pkg)
              Sample.settings cfg 28%nat 29%nat fs)
    as (_ & Hx & H).
  - discriminate.
  - intros j [<-|[]]. reflexivity.
  - destruct (H Sample.jobText Sample.jobTree Sample.nameTree) as (Hr & _ & _ & Hf & _).
    + split; [ discriminate | ]. split; [ reflexivity | ]. split; reflexivity.
    + reflexivity.
    + apply not_elem_of_empty.
    + split; [ exact Hr | ]. split; [ exact Hx | exact Hf ].
Defined.

(** C9 as stated fails: a group with a template reference whose only entry
    is skipped, or which has no entry, writes no file when its template file
    is missing or does not parse, and leaves no header file when the write
    fails. *)
Lemma C9_counterexample :
  let out := "/test-infra/config/jobs/kubeadm-kinder.yaml" in
  (* the template file is missing *)
  (let cfg := Sample.group [Sample.oldJob] in
   let o := Sample.run cfg (mkFS ∅ ∅) in
   jobGroup.TestInfraJobSpec_Template cfg <> ""
   /\ Sample.skip 28 29 (job.KubernetesVersion Sample.oldJob) = true
   /\ result o = inl (PathError "open" "/ci/jobs/templates/testinfra/regular.yaml"
                                "no such file or directory")
   /\ Forall (fun e => is_write e = false) (trace o)
   /\ files (final o) !! out = None)
  (* the template file does not parse, the group has no entry *)
  /\ (let cfg := Sample.group [] in
      let o := Sample.run cfg (Sample.disk "- name: {{ .KubernetesVersion") in
      result o = inl (errorString "template: unclosed action")
      /\ Forall (fun e => is_write e = false) (trace o)
      /\ files (final o) !! out = None)
  (* the write fails *)
  /\ (let cfg := Sample.group [Sample.oldJob] in
      let o := Sample.run cfg (mkFS (files (Sample.disk Sample.jobText)) {[ out ]}) in
      result o = inl (PathError "write" out "no space left on device")
      /\ files (final o) !! out = Some "").
Proof.
  intros out. split; [ | split ].
  - intros cfg o. split; [ discriminate | ]. split; [ reflexivity | ].
    split; [ reflexivity | ]. split; [ repeat constructor | reflexivity ].
  - intros cfg o. split; [ reflexivity | ].
    split; [ repeat constructor | reflexivity ].
  - intros cfg o. split; reflexivity.
Qed.

Lemma C10_witness :
  let cfg := Sample.group Sample.threeJobs in
  let fs := Sample.disk Sample.jobText in
  let j1 := Sample.pinnedJob in
  let j2 := job.mk "1.31" "latest" "1.30" "1.29" "latest" in
  let run j := processJob (Lib := Sample.lib) (Pkg := Sample.pkg) Sample.settings cfg
                          28%nat 29%nat
                          (fileNameTemplate (Lib := Sample.lib) Sample.nameTree)
                (jobTemplate (Lib := Sample.lib) (Pkg := Sample.pkg) Sample.jobTree)
                          0 j "periodics:" fs in
  let skipped j :=
    run j = Outcome [ Log "processing Job index %d, %#v" [LInt 0; LJob j];
                      Log "skipping Job index %d, %#v" [LInt 0; LJob j] ]
                    fs (inr "periodics:") in
  let rendered j :=
    In (TemplateExecute "file-name" (initVars Sample.settings cfg j)) (trace (run j)) in
  job.KubernetesVersion j1 = job.KubernetesVersion j2
  /\ ((skipped j1 /\ skipped j2 /\ ~ rendered j1 /\ ~ rendered j2)
      \/ (rendered j1 /\ rendered j2 /\ ~ skipped j1 /\ ~ skipped j2)).
Proof.
  intros cfg fs j1 j2 run skipped rendered.
  split; [ reflexivity | ].
  exact (C10_skip_reads_only_kubernetes_version (Lib := Sample.lib) (Pkg := Sample.pkg)
           Sample.settings cfg 28%nat 29%nat
           (fileNameTemplate (Lib := Sample.lib) Sample.nameTree)
                (jobTemplate (Lib := Sample.lib) (Pkg := Sample.pkg) Sample.jobTree)
           0 "periodics:" fs j1 j2 eq_refl).
Defined.

(** * Further properties on the sample instance *)

Lemma X1_witness :
  let cfg := Sample.group Sample.threeJobs in
  let o := Sample.run cfg (Sample.disk Sample.jobText) in
  jobGroup.TestInfraJobSpec_Template cfg <> ""
  /\ result o = inr tt
  /\ exists blocks : list string,
       length blocks = 2%nat
       /\ files (final o) !! "/test-infra/config/jobs/kubeadm-kinder.yaml" =
          Some (initialText (Pkg := Sample.pkg) ++ joinBlocks blocks)%string.
Proof.
  intros cfg o.
  assert (Hne : jobGroup.TestInfraJobSpec_Template cfg <> "") by discriminate.
  assert (Hok : result o = inr tt) by reflexivity.
  split; [ exact Hne | ]. split; [ exact Hok | ].
  destruct (X1_generated_text (Lib := Sample.lib) (Pkg := Sample.pkg)
              Sample.settings cfg 28%nat 29%nat (Sample.disk Sample.jobText) Hne Hok)
    as (tBytes & treeJob & treeName & blocks & _ & Hb & Hf & _).
  exists blocks. split; [ | exact Hf ].
  symmetry. exact (Forall2_length _ _ _ Hb).
Defined.

Lemma X2_witness :
  let cfg := Sample.group Sample.threeJobs in
  let o := Sample.run cfg (Sample.disk Sample.jobText) in
  (exists str, In (Unmarshal str) (trace o))
  /\ length (List.filter is_execute (trace o)) = 4%nat.
Proof.
  intros cfg o.
  assert (Hin : In (Unmarshal
                      (initialText (Pkg := Sample.pkg)
                       ++ joinBlocks
                            [ ("- name: kinder-latest" ++ strings.newline
                               ++ "  interval: 2h" ++ strings.newline
                               ++ "  annotations:" ++ strings.newline
                               ++ alertBlock 4 8 16 ++ strings.newline)%string;
                              ("- name: kinder-1-31" ++ strings.newline
                               ++ "  interval: 12h" ++ strings.newline
                               ++ "  annotations:" ++ strings.newline
                               ++ alertBlock 4 4 48 ++ strings.newline)%string ])%string)
                   (trace o)) by in_trace.
  split; [ eexists; exact Hin | ].
  destruct (X2_executions_in_order (Lib := Sample.lib) (Pkg := Sample.pkg)
              Sample.settings cfg 28%nat 29%nat (Sample.disk Sample.jobText) _ Hin)
    as (tBytes & treeJob & treeName & _ & _ & Hlen).
  exact Hlen.
Defined.

Lemma X3_witness :
  let cfg := Sample.group Sample.threeJobs in
  let o := Sample.run cfg (Sample.disk Sample.unknownFieldText) in
  let v := resolveVars (Pkg := Sample.pkg) Sample.settings cfg Sample.latestJob
                       "regular-latest.yaml" in
  In (TemplateExecute "job-template" v) (trace o)
  /\ (exists before, trace o = (before ++ [TemplateExecute "job-template" v])%list)
  /\ Forall (fun ev => is_unmarshal ev = false) (trace o).
Proof.
  intros cfg o v.
  assert (Hin : In (TemplateExecute "job-template" v) (trace o)) by in_trace.
  split; [ exact Hin | ].
  apply (X3_failed_execution_ends_run (Lib := Sample.lib) (Pkg := Sample.pkg)
           Sample.settings cfg 28%nat 29%nat (Sample.disk Sample.unknownFieldText)
           Sample.unknownFieldText
           [Sample.Text "- name: "; Sample.Field "Nope"; Sample.Text ""]
           Sample.nameTree "job-template" v "- name: " (Sample.no_field "Nope")).
  - split; [ discriminate | ]. split; [ reflexivity | ]. split; reflexivity.
  - exact Hin.
  - right. split; reflexivity.
Defined.

Lemma X4_witness :
  let cfg := Sample.group Sample.threeJobs in
  let fs := Sample.disk Sample.unknownFieldText in
  let loop jobs :=
    processJobs (Lib := Sample.lib) (Pkg := Sample.pkg) Sample.settings cfg 28%nat 29%nat
                (fileNameTemplate (Lib := Sample.lib) Sample.nameTree)
                (jobTemplate (Lib := Sample.lib) (Pkg := Sample.pkg)
                   [Sample.Text "- name: "; Sample.Field "Nope"; Sample.Text ""])
                0 jobs "periodics:" fs in
  result (loop [Sample.oldJob; Sample.latestJob]) = inl (Sample.no_field "Nope")
  /\ loop ([Sample.oldJob; Sample.latestJob] ++ [Sample.pinnedJob])%list =
     loop [Sample.oldJob; Sample.latestJob].
Proof.
  intros cfg fs loop.
  assert (H : result (loop [Sample.oldJob; Sample.latestJob]) = inl (Sample.no_field "Nope"))
    by reflexivity.
  split; [ exact H | ].
  exact (X4_entries_after_failure_unreached (Lib := Sample.lib) (Pkg := Sample.pkg)
           Sample.settings cfg 28%nat 29%nat _ _ 0 _ [Sample.pinnedJob] "periodics:" fs _ H).
Defined.

Lemma X5_witness :
  let cfg := Sample.group Sample.threeJobs in
  let fs := Sample.disk Sample.jobText in
  let o := Sample.run cfg fs in
  In (ReadFile "/ci/jobs/templates/testinfra/regular.yaml") (trace o)
  /\ templatePath (Lib := Sample.lib) Sample.settings cfg =
     "/ci/jobs/templates/testinfra/regular.yaml"
  /\ files (final o) !! "/ci/jobs/templates/testinfra/regular.yaml" = Some Sample.jobText
  /\ (length (List.filter is_write (trace o)) <= 1)%nat.
Proof.
  intros cfg fs o.
  destruct (X5_reads_and_writes (Lib := Sample.lib) (Pkg := Sample.pkg)
              Sample.settings cfg 28%nat 29%nat fs)
    as (Hr & _ & _ & Hw & Hframe & _).
  assert (Hin : In (ReadFile "/ci/jobs/templates/testinfra/regular.yaml") (trace o))
    by in_trace.
  split; [ exact Hin | ]. split; [ symmetry; exact (Hr _ Hin) | ].
  split; [ | exact Hw ].
  refine (eq_trans (Hframe "/ci/jobs/templates/testinfra/regular.yaml" _) _);
    [ vm_compute; discriminate | reflexivity ].
Defined.

Lemma X6_witness :
  let cfg := Sample.group Sample.threeJobs in
  let o1 := Sample.run cfg (Sample.disk Sample.jobText) in
  let o2 := Sample.run cfg (final o1) in
  outputPath (Lib := Sample.lib) Sample.settings cfg
    <> templatePath (Lib := Sample.lib) Sample.settings cfg
  /\ result o2 = result o1 /\ trace o2 = trace o1 /\ final o2 = final o1.
Proof.
  intros cfg o1 o2.
  assert (Hne : outputPath (Lib := Sample.lib) Sample.settings cfg
                <> templatePath (Lib := Sample.lib) Sample.settings cfg)
    by (vm_compute; discriminate).
  split; [ exact Hne | ].
  exact (X6_regeneration_idempotent (Lib := Sample.lib) (Pkg := Sample.pkg)
           Sample.settings cfg 28%nat 29%nat (Sample.disk Sample.jobText) Hne).
Defined.

Lemma X7_witness :
  let cfg := Sample.group [Sample.oldJob] in
  let out := "/test-infra/config/jobs/kubeadm-kinder.yaml" in
  let fs := mkFS (<[out := "periodics: []"]> (files (Sample.disk Sample.jobText))) {[ out ]} in
  let o := Sample.run cfg fs in
  In (WriteFile out (initialText (Pkg := Sample.pkg)) 420) (trace o)
  /\ out ∈ locked fs
  /\ result o = inl (PathError "write" out "no space left on device")
  /\ files (final o) !! out = Some ""
  /\ last (trace o) = Some (WriteFile out (initialText (Pkg := Sample.pkg)) 420).
Proof.
  intros cfg out fs o.
  assert (Hin : In (WriteFile out (initialText (Pkg := Sample.pkg)) 420) (trace o))
    by in_trace.
  assert (Hl : out ∈ locked fs) by (vm_compute; reflexivity).
  split; [ exact Hin | ]. split; [ exact Hl | ].
  destruct (X7_write_decides (Lib := Sample.lib) (Pkg := Sample.pkg)
              Sample.settings cfg 28%nat 29%nat fs _ _ _ Hin)
    as (_ & _ & Hlast & _ & Hfail).
  destruct (Hfail Hl) as (Hr & Hf).
  split; [ exact Hr | ]. split; [ | exact Hlast ].
  cbv beta iota delta [os_fault Sample.lib Sample.fault] in Hf.
  change (String.prefix "/proc/" out) with false in Hf. cbv iota in Hf.
  refine (eq_trans (f_equal (fun x => files x !! out) Hf) _). reflexivity.
Defined.

Lemma X8_witness :
  let cfg := Sample.group Sample.threeJobs in
  let o := Sample.run cfg (Sample.disk Sample.jobText) in
  let v := initVars Sample.settings cfg Sample.pinnedJob in
  In (TemplateExecute "file-name" v) (trace o)
  /\ exists j,
       In j (jobGroup.Jobs cfg)
       /\ templateVars.KubernetesVersion v = job.KubernetesVersion j
       /\ templateVars.InitVersion v = job.InitVersion j
       /\ templateVars.WorkflowFile v = "".
Proof.
  intros cfg o v.
  assert (Hin : In (TemplateExecute "file-name" v) (trace o)) by in_trace.
  split; [ exact Hin | ].
  destruct (X8_variables_copied (Lib := Sample.lib) (Pkg := Sample.pkg)
              Sample.settings cfg 28%nat 29%nat (Sample.disk Sample.jobText) _ _ Hin)
    as (j & Hj & Hk & _ & _ & Hi & _ & _ & _ & _ & Hempty).
  exists j. split; [ exact Hj | ]. split; [ exact Hk | ]. split; [ exact Hi | ].
  exact (proj1 (Hempty eq_refl)).
Defined.

Lemma X9_witness :
  let w := workflowFile "regular-latest.yaml" in
  strings.HasSuffix "regular-latest.yaml" ".yaml" = true
  /\ (unquote w ++ ".yaml")%string = "regular-latest.yaml"
  /\ strings.HasSuffix w ".yaml" = false.
Proof.
  intros w.
  destruct (X9_workflow_file_round_trip "regular-latest.yaml") as (Hs & _ & Hr & _).
  split; [ reflexivity | ]. split; [ exact (Hr eq_refl) | exact Hs ].
Defined.

Lemma X10_witness :
  let cfgA := Sample.group Sample.threeJobs in
  let cfgB := jobGroup.mk "upgrade" "templates/testinfra/regular.yaml"
                          "out/kubeadm-kinder-upgrade.yaml"
                          "upgrade-{{ .KubernetesVersion }}.yaml" [Sample.pinnedJob] in
  let fs := Sample.disk Sample.jobText in
  let a := Sample.run cfgA fs in
  let b := Sample.run cfgB fs in
  outputPath (Lib := Sample.lib) Sample.settings cfgA
    <> outputPath (Lib := Sample.lib) Sample.settings cfgB
  /\ result (Sample.run cfgB (final a)) = result b
  /\ result (Sample.run cfgA (final b)) = result a
  /\ final (Sample.run cfgB (final a)) = final (Sample.run cfgA (final b)).
Proof.
  intros cfgA cfgB fs a b.
  assert (H1 : outputPath (Lib := Sample.lib) Sample.settings cfgA
               <> outputPath (Lib := Sample.lib) Sample.settings cfgB)
    by (vm_compute; discriminate).
  assert (H2 : outputPath (Lib := Sample.lib) Sample.settings cfgA
               <> templatePath (Lib := Sample.lib) Sample.settings cfgB)
    by (vm_compute; discriminate).
  assert (H3 : outputPath (Lib := Sample.lib) Sample.settings cfgB
               <> templatePath (Lib := Sample.lib) Sample.settings cfgA)
    by (vm_compute; discriminate).
  split; [ exact H1 | ].
  destruct (X10_groups_commute (Lib := Sample.lib) (Pkg := Sample.pkg)
              Sample.settings cfgA cfgB 28%nat 29%nat 28%nat 29%nat fs H1 H2 H3)
    as (Hrb & _ & Hra & _ & Hf).
  split; [ exact Hrb | ]. split; [ exact Hra | exact Hf ].
Defined.
